(** * examples/workflow-example.py: the command runner and its drivers

    A shallow embedding of the Python script that shells out to the
    Content Creator CLI.  Python [str] values are Rocq strings holding the
    UTF-8 encoding of the text; [int] is [Z]; [None] is [None].

    The script's two library calls are embedded with it:
    - [shlex.split] (CPython's Lib/shlex.py, posix mode, [whitespace_split]
      set, no commenters, no punctuation characters);
    - [subprocess.run(cmd, capture_output=True, text=True, check=True)],
      whose child process is an oracle of the enclosing section.

    The environment is idealised in two places: the console accepts every
    text [print] writes, and [os.getcwd()] returns.  Asynchronous
    interruption of the script is outside the model. *)

From Stdlib Require Import String Ascii List ZArith Bool Lia DecimalString.
Import ListNotations.

Open Scope list_scope.
Open Scope string_scope.

(** ** Python values *)

(** The double quote character, written by code so that no literal has to
    escape it. *)
Definition dquote : ascii := ascii_of_nat 34.
Definition squote : ascii := ascii_of_nat 39.
Definition backslash : ascii := ascii_of_nat 92.

(** [c in s] for a one-character string [c]. *)
Fixpoint in_str (c : ascii) (s : string) : bool :=
  match s with
  | EmptyString => false
  | String d s' => (c =? d)%char || in_str c s'
  end.

(** Truth value of a [str]: empty is falsy. *)
Definition nonempty (s : string) : bool :=
  match s with
  | EmptyString => false
  | String _ _ => true
  end.

(** [s * n] on strings. *)
Fixpoint str_mul (s : string) (n : nat) : string :=
  match n with
  | O => EmptyString
  | S n' => s ++ str_mul s n'
  end.

(** [str(n)] for an [int]. *)
Definition str_int (n : Z) : string := NilZero.string_of_int (Z.to_int n).

(** Two lowercase hexadecimal digits of a byte, as the format [%02x]
    writes them. *)
Definition hex_digit (n : nat) : ascii :=
  match n with
  | 0 => "0" | 1 => "1" | 2 => "2" | 3 => "3" | 4 => "4" | 5 => "5"
  | 6 => "6" | 7 => "7" | 8 => "8" | 9 => "9" | 10 => "a" | 11 => "b"
  | 12 => "c" | 13 => "d" | 14 => "e" | _ => "f"
  end%char.

Definition hex_byte (b : ascii) : string :=
  String (hex_digit (nat_of_ascii b / 16))
    (String (hex_digit (nat_of_ascii b mod 16)) EmptyString).

(** The exceptions the calls of the [try] block raise, other than
    [CalledProcessError]: [ValueError] from [shlex.split] and from
    [subprocess.run] on an argument that holds a NUL character,
    [IndexError] from [subprocess.run] on an empty argument list, the
    [OSError] family ([FileNotFoundError], [PermissionError], ...) when
    the child cannot be created or its program cannot be executed, and
    [UnicodeDecodeError] when the captured output of the child is not text
    in the encoding [text=True] decodes with ([object] is the captured
    bytes, [start] and [stop] delimit the bytes that do not decode). *)
Inductive StartError : Type :=
| ValueError (msg : string)
| IndexError (msg : string)
| OSError (errno : Z) (strerror : string) (filename : option string)
| UnicodeDecodeError (encoding : string) (object : string)
    (start : nat) (stop : nat) (reason : string).

Inductive exn : Type :=
| CalledProcessError (returncode : Z) (output : string) (stderr : string)
| StartFailure (e : StartError).

Inductive Result (A : Type) : Type :=
| Ok (a : A)
| Raise (e : exn).
Arguments Ok {A} a.
Arguments Raise {A} e.

(** ** shlex.split *)

Module shlex.

Definition whitespace : string :=
  String " " (String (ascii_of_nat 9)
    (String (ascii_of_nat 13) (String (ascii_of_nat 10) EmptyString))).
Definition quotes : string := String squote (String dquote EmptyString).
Definition escape : string := String backslash EmptyString.
Definition escapedquotes : string := String dquote EmptyString.

(** [self.state]: [' '], ['a'], a quote character or an escape
    character.  [None] (past end of file) is set only where the input is
    exhausted, and the iteration stops there. *)
Inductive lex_state : Type :=
| in_space
| in_word
| in_quote (q : ascii)
| in_escape (e : ascii).

Definition state_char (s : lex_state) : ascii :=
  match s with
  | in_space => " "
  | in_word => "a"
  | in_quote q => q
  | in_escape e => e
  end.

(** The tail of [read_token]: in posix mode an empty token that was not
    quoted is [None], which ends the iteration of [list(lex)]. *)
Definition result_token (token : string) (quoted : bool) : option string :=
  if negb quoted && negb (nonempty token) then None else Some token.

Definition emit (token : string) (quoted : bool)
    (next : Result (list string)) : Result (list string) :=
  match result_token token quoted with
  | None => Ok []
  | Some t =>
      match next with
      | Ok l => Ok (t :: l)
      | Raise e => Raise e
      end
  end.

(** [list(lex)]: [read_token] called until it returns [None].  One
    function runs the character loop of every call: where [read_token]
    breaks, the token is emitted and the next call starts from the state
    left in [self.state], with [quoted], [escapedstate] and [self.token]
    reset.  Characters are bytes of the UTF-8 text; every character the
    lexer tests for is ASCII, so a multi-byte character is carried
    through each state as its bytes.  With [whitespace_split] set and no
    punctuation characters, the [wordchars] test and the final branch of
    the word state both accept the character. *)
Fixpoint read_tokens (instream : string) (state : lex_state)
    (token : string) (quoted : bool) (escapedstate : lex_state)
    : Result (list string) :=
  match instream with
  | EmptyString =>
      match state with
      | in_space | in_word => emit token quoted (Ok [])
      | in_quote _ => Raise (StartFailure (ValueError "No closing quotation"))
      | in_escape _ => Raise (StartFailure (ValueError "No escaped character"))
      end
  | String nextchar rest =>
      match state with
      | in_space =>
          if in_str nextchar whitespace then
            if nonempty token || quoted
            then emit token quoted
                   (read_tokens rest in_space EmptyString false in_space)
            else read_tokens rest in_space token quoted escapedstate
          else if in_str nextchar escape then
            read_tokens rest (in_escape nextchar) token quoted in_word
          else if in_str nextchar quotes then
            read_tokens rest (in_quote nextchar) token quoted escapedstate
          else
            read_tokens rest in_word (String nextchar EmptyString)
              quoted escapedstate
      | in_quote q =>
          if (nextchar =? q)%char then
            read_tokens rest in_word token true escapedstate
          else if in_str nextchar escape && in_str q escapedquotes then
            read_tokens rest (in_escape nextchar) token true (in_quote q)
          else
            read_tokens rest (in_quote q) (token ++ String nextchar EmptyString)
              true escapedstate
      | in_escape e =>
          let token :=
            if in_str (state_char escapedstate) quotes
               && negb (nextchar =? e)%char
               && negb (nextchar =? state_char escapedstate)%char
            then token ++ String e EmptyString
            else token in
          read_tokens rest escapedstate (token ++ String nextchar EmptyString)
            quoted escapedstate
      | in_word =>
          if in_str nextchar whitespace then
            if nonempty token || quoted
            then emit token quoted
                   (read_tokens rest in_space EmptyString false in_space)
            else read_tokens rest in_space token quoted escapedstate
          else if in_str nextchar quotes then
            read_tokens rest (in_quote nextchar) token quoted escapedstate
          else if in_str nextchar escape then
            read_tokens rest (in_escape nextchar) token quoted in_word
          else
            read_tokens rest in_word (token ++ String nextchar EmptyString)
              quoted escapedstate
      end
  end.

(** [shlex.split(s)]. *)
Definition split (s : string) : Result (list string) :=
  read_tokens s in_space EmptyString false in_space.

End shlex.

(** ** Effects: console output and child processes *)

(** What the script does to the outside world, in order: a [print] call
    (the text written, without the newline [print] adds) or a call of
    [subprocess.run] with its argument vector. *)
Inductive event : Type :=
| Print (text : string)
| Run (args : list string).

Definition trace : Type := list event.

(** The argument vectors of the [subprocess.run] calls of a trace. *)
Fixpoint runs (tr : trace) : list (list string) :=
  match tr with
  | [] => []
  | Print _ :: tr' => runs tr'
  | Run args :: tr' => args :: runs tr'
  end.

(** The texts printed in a trace. *)
Fixpoint printed (tr : trace) : list string :=
  match tr with
  | [] => []
  | Print text :: tr' => text :: printed tr'
  | Run _ :: tr' => printed tr'
  end.

(** A Python computation: it extends the trace and returns or raises. *)
Definition M (A : Type) : Type := trace -> Result A * trace.

Definition ret {A : Type} (a : A) : M A := fun tr => (Ok a, tr).

Definition bind {A B : Type} (m : M A) (k : A -> M B) : M B :=
  fun tr =>
    match m tr with
    | (Ok a, tr') => k a tr'
    | (Raise e, tr') => (Raise e, tr')
    end.

Definition lift {A : Type} (r : Result A) : M A := fun tr => (r, tr).

(** [try: body / except ... as e: handler e]; every exception of [exn] is
    an instance of [Exception]. *)
Definition try_except {A : Type} (body : M A) (handler : exn -> M A) : M A :=
  fun tr =>
    match body tr with
    | (Ok a, tr') => (Ok a, tr')
    | (Raise e, tr') => handler e tr'
    end.

Declare Scope py_scope.
Delimit Scope py_scope with py.
Notation "x <- c1 ;; c2" := (bind c1 (fun x => c2))
  (at level 100, c1 at next level, right associativity) : py_scope.
Notation "' pat <- c1 ;; c2" := (bind c1 (fun pat => c2))
  (at level 100, pat pattern, c1 at next level, right associativity) : py_scope.
Notation "c1 ;; c2" := (bind c1 (fun _ => c2))
  (at level 100, right associativity) : py_scope.
Open Scope py_scope.

(** [print] of its positional arguments: their texts joined by a space. *)
Definition print (objects : list string) : M unit :=
  fun tr => (Ok tt, tr ++ [Print (String.concat " " objects)])%list.

Definition nl : string := String (ascii_of_nat 10) EmptyString.
Definition dq : string := String dquote EmptyString.

(** What [subprocess.run] meets with an argument vector: the child runs
    and terminates with an exit code and its captured output decodes to
    text; or it cannot be created or executed and an [OSError] carries the
    reason; or it runs and terminates with an exit code but its captured
    output is not text in the decoding encoding; or an argument holds a
    NUL character and the vector is refused before any child is
    created. *)
Inductive child_outcome : Type :=
| Exited (returncode : Z) (out : string) (err : string)
| NotStarted (errno : Z) (strerror : string) (filename : option string)
| Undecodable (returncode : Z) (encoding : string) (object : string)
    (start : nat) (stop : nat) (reason : string)
| NullByte.


Record CompletedProcess : Type := {
  args : list string;
  returncode : Z;
  stdout : string;
  stderr : string
}.


(** ** Vocabulary of the properties *)

(** Every character of a string satisfies a test. *)
Fixpoint str_all (p : ascii -> bool) (s : string) : bool :=
  match s with
  | EmptyString => true
  | String c s' => p c && str_all p s'
  end.

(** Characters that stand for themselves between double quotes: anything
    but the double quote and the backslash. *)
Definition quote_free_char (c : ascii) : bool :=
  negb (c =? dquote)%char && negb (c =? backslash)%char.

(** Neither whitespace nor a quote character. *)
Definition unspaced_unquoted_char (c : ascii) : bool :=
  negb (in_str c shlex.whitespace) && negb (in_str c shlex.quotes).

(** Characters that stand for themselves outside quotes: no whitespace,
    no quote, no backslash. *)
Definition plain_char (c : ascii) : bool :=
  unspaced_unquoted_char c && negb (in_str c shlex.escape).

(** Tokens of a prefix followed by the tokens, or the failure, of the rest. *)
Definition prepend (l : list string) (r : Result (list string))
    : Result (list string) :=
  match r with
  | Ok l' => Ok (l ++ l')%list
  | Raise e => Raise e
  end.

(** [needle in s] on strings. *)
Definition mentions (needle s : string) : bool :=
  match index 0 needle s with
  | Some _ => true
  | None => false
  end.

(** An argument vector made of one flag token and one value token per
    pair. *)
Definition flag_pairs (pairs : list (string * string)) : list string :=
  flat_map (fun fv => [fst fv; snd fv]) pairs.

(** The command lines the drivers format, and the argument vectors they
    are expected to become. *)
Definition create_sync_command : string :=
  "npm run cli:create -- --topic " ++ dq ++ "AI 技术的发展趋势" ++ dq ++
  " --requirements " ++ dq ++
  "写一篇关于 AI 技术发展趋势的文章，重点讨论大语言模型" ++ dq ++
  " --keywords " ++ dq ++ "AI,人工智能,技术发展" ++ dq ++
  " --min-words 500 --max-words 1000 --mode sync".

Definition create_sync_argv : list string :=
  (["npm"; "run"; "cli:create"; "--"] ++
   flag_pairs
     [("--topic", "AI 技术的发展趋势");
      ("--requirements", "写一篇关于 AI 技术发展趋势的文章，重点讨论大语言模型");
      ("--keywords", "AI,人工智能,技术发展");
      ("--min-words", "500"); ("--max-words", "1000"); ("--mode", "sync")])%list.

Definition create_async_command : string :=
  "npm run cli:create -- --topic " ++ dq ++ "Web 开发的最佳实践" ++ dq ++
  " --requirements " ++ dq ++
  "介绍现代 Web 开发的最佳实践，包括性能优化和安全考虑" ++ dq ++
  " --keywords " ++ dq ++ "Web,前端,性能优化" ++ dq ++
  " --min-words 800 --max-words 1200 --mode async".

Definition create_async_argv : list string :=
  (["npm"; "run"; "cli:create"; "--"] ++
   flag_pairs
     [("--topic", "Web 开发的最佳实践");
      ("--requirements", "介绍现代 Web 开发的最佳实践，包括性能优化和安全考虑");
      ("--keywords", "Web,前端,性能优化");
      ("--min-words", "800"); ("--max-words", "1200"); ("--mode", "async")])%list.

Definition status_command (task_id : string) : string :=
  "npm run cli:status -- --id " ++ task_id.

Definition status_argv (task_id : string) : list string :=
  ["npm"; "run"; "cli:status"; "--"; "--id"; task_id].

Definition list_command : string := "npm run cli:list".

Definition list_argv : list string := ["npm"; "run"; "cli:list"].

(** What a driver prints before it calls the runner. *)
Definition announce (header command : string) : trace :=
  [Print (nl ++ header); Print ("执行命令: " ++ command)].

(** The block [print_result] writes. *)
Definition result_block (result : string) : trace :=
  [Print (nl ++ str_mul "=" 50); Print "任务结果"; Print (str_mul "=" 50);
   Print result; Print (str_mul "=" 50)].

(** The failure banner of a driver, with the exit code in it. *)
Definition failure_banner (what : string) (code : Z) : string :=
  "❌ " ++ what ++ " (返回码: " ++ str_int code ++ ")".

(** The captured output a driver prints under its failure banner. *)
Definition failure_details (out err : string) : trace :=
  ((if nonempty out then [Print ("标准输出: " ++ out)] else []) ++
   (if nonempty err then [Print ("错误输出: " ++ err)] else []))%list.

(** What [main] prints before and after the drivers it runs. *)
Definition main_banner : trace :=
  [Print "Content Creator Workflow 使用示例 (Python 版本)";
   Print (str_mul "=" 60)].

Definition main_start : trace :=
  [Print (nl ++ "✅ 项目环境检查通过"); Print (nl ++ str_mul "=" 60);
   Print "开始运行示例"; Print (str_mul "=" 60)].

Definition main_summary : trace :=
  [Print (nl ++ str_mul "=" 60); Print "所有示例运行完成！";
   Print (str_mul "=" 60); Print (nl ++ "💡 其他可用命令:");
   Print "  - 查看任务结果: npm run cli:result -- --id <task-id>";
   Print "  - 重试失败任务: npm run cli:retry -- --id <task-id>";
   Print "  - 取消任务: npm run cli:cancel -- --id <task-id>";
   Print "  - 启动监控面板: npm run monitor"].

Definition retry_hint : trace :=
  [Print (nl ++ "注意: 请手动从任务列表中找到失败的任务ID，然后执行重试");
   Print "例如: npm run cli:retry -- --id <task-id>"].

(** Sample environments: a stub child that always exits with a given code
    and output, an operating system on which no program is found, and
    [repr] on text without quotes or escapes. *)
Definition stub_exit (code : Z) (out err : string)
    : list (list string) -> list string -> child_outcome :=
  fun _ _ => Exited code out err.

Definition stub_missing : list (list string) -> list string -> child_outcome :=
  fun _ cmd => NotStarted 2 "No such file or directory" (Some (hd EmptyString cmd)).

Definition stub_repr (s : string) : string := "'" ++ s ++ "'".


(** The four drivers that call the runner themselves, with the texts each
    one prints. *)
Inductive driver : Type :=
| CreateSync
| CreateAsync
| Status (task_id : string)
| ListTasks.

Definition driver_header (d : driver) : string :=
  match d with
  | CreateSync => "=== 示例 1: 创建同步任务 ==="
  | CreateAsync => "=== 示例 2: 创建异步任务 ==="
  | Status _ => "=== 示例 3: 检查任务状态 ==="
  | ListTasks => "=== 示例 4: 列出所有任务 ==="
  end.

Definition driver_command (d : driver) : string :=
  match d with
  | CreateSync => create_sync_command
  | CreateAsync => create_async_command
  | Status task_id => status_command task_id
  | ListTasks => list_command
  end.

Definition driver_success (d : driver) : string :=
  match d with
  | CreateSync | CreateAsync => "✅ 任务创建成功！"
  | Status _ => "✅ 任务状态查询成功！"
  | ListTasks => "✅ 任务列表查询成功！"
  end.

Definition driver_failure (d : driver) : string :=
  match d with
  | CreateSync | CreateAsync => "任务执行失败"
  | Status _ => "任务状态查询失败"
  | ListTasks => "任务列表查询失败"
  end.

Definition retry_header : string := "=== 示例 5: 重试失败的任务 ===".

(** The runner extends the trace by its one call of [subprocess.run]. *)
Definition runner_events (command : string) : trace :=
  match shlex.split command with
  | Ok cmd => [Run cmd]
  | Raise _ => []
  end.

(** ** Vocabulary of the further properties *)

Definition whitespace_char (c : ascii) : bool := in_str c shlex.whitespace.

(** An argument as the drivers write it on a command line: a bare word, or
    a value between double quotes. *)
Inductive cli_arg : Type :=
| Bare (word : string)
| Quoted (value : string).

Definition render (a : cli_arg) : string :=
  match a with
  | Bare word => word
  | Quoted value => dq ++ value ++ dq
  end.

Definition arg_value (a : cli_arg) : string :=
  match a with
  | Bare word => word
  | Quoted value => value
  end.

(** A bare word is not empty and plain; a quoted value holds no double
    quote and no backslash, and may be empty. *)
Definition well_formed (a : cli_arg) : bool :=
  match a with
  | Bare word => nonempty word && str_all plain_char word
  | Quoted value => str_all quote_free_char value
  end.

(** The f-strings of [example1_create_sync_task] and
    [example2_create_async_task], as functions of the variables they
    interpolate. *)
Definition create_sync_template (topic requirements keywords : string) : string :=
  "npm run cli:create -- --topic " ++ dq ++ topic ++ dq ++
  " --requirements " ++ dq ++ requirements ++ dq ++
  " --keywords " ++ dq ++ keywords ++ dq ++
  " --min-words 500 --max-words 1000 --mode sync".

Definition create_async_template (topic requirements keywords : string) : string :=
  "npm run cli:create -- --topic " ++ dq ++ topic ++ dq ++
  " --requirements " ++ dq ++ requirements ++ dq ++
  " --keywords " ++ dq ++ keywords ++ dq ++
  " --min-words 800 --max-words 1200 --mode async".

(** Everything a driver adds to the trace, given the triple the runner
    returned to it. *)
Definition driver_report (d : driver) (r : Z * string * string) : trace :=
  let '(code, out, err) := r in
  (announce (driver_header d) (driver_command d) ++
   runner_events (driver_command d) ++
   (if (code =? 0)%Z
    then Print (driver_success d) :: result_block out
    else Print (failure_banner (driver_failure d) code)
           :: failure_details out err))%list.

(** The value a driver returns, given the runner's triple. *)
Definition driver_value (r : Z * string * string) : option string :=
  let '(code, out, _) := r in
  if (code =? 0)%Z then Some out else None.

(** The two messages of a tokenization failure. *)
Definition no_closing_quotation : string := "No closing quotation".
Definition no_escaped_character : string := "No escaped character".

(** Neither a quote character nor a backslash. *)
Definition unquoted_char (c : ascii) : bool :=
  negb (in_str c shlex.quotes) && negb (in_str c shlex.escape).

(** A token as an unquoted command line yields it: not empty, plain. *)
Definition plain_nonempty (t : string) : bool :=
  nonempty t && str_all plain_char t.

Section Script.

(** The environment of one run of the script.  [child history argv] is
    the outcome of executing [argv] after the earlier [subprocess.run]
    calls [history]; [path_exists] is [os.path.exists]; [getcwd] is the
    value of [os.getcwd()]; [repr] is Python's [repr] on [str]. *)
Variable child : list (list string) -> list string -> child_outcome.
Variable path_exists : string -> bool.
Variable getcwd : string.
Variable repr : string -> string.

(** [str(e)]: the single argument of [ValueError] and [IndexError];
    [OSError] formats its errno, message and file name;
    [UnicodeDecodeError] names the encoding, the byte or the range of
    bytes that does not decode, and the reason. *)
Definition str (e : StartError) : string :=
  match e with
  | ValueError msg => msg
  | IndexError msg => msg
  | OSError errno strerror filename =>
      "[Errno " ++ str_int errno ++ "] " ++ strerror ++
      match filename with
      | Some f => ": " ++ repr f
      | None => EmptyString
      end
  | UnicodeDecodeError encoding object start stop reason =>
      match String.get start object with
      | Some badbyte =>
          if (stop =? start + 1)%nat
          then "'" ++ encoding ++ "' codec can't decode byte 0x" ++
               hex_byte badbyte ++ " in position " ++
               str_int (Z.of_nat start) ++ ": " ++ reason
          else "'" ++ encoding ++ "' codec can't decode bytes in position " ++
               str_int (Z.of_nat start) ++ "-" ++
               str_int (Z.of_nat stop - 1) ++ ": " ++ reason
      | None =>
          "'" ++ encoding ++ "' codec can't decode bytes in position " ++
          str_int (Z.of_nat start) ++ "-" ++
          str_int (Z.of_nat stop - 1) ++ ": " ++ reason
      end
  end.

(** [subprocess.run(cmd, capture_output=True, text=True, check=True)]:
    no shell is involved, [cmd] is the child's argument vector.  An empty
    [cmd] fails on [args[0]]; a NUL character in an argument is a
    [ValueError]; captured output that does not decode is a
    [UnicodeDecodeError], raised after the child has terminated and before
    its exit code is looked at; with [check], a nonzero exit code raises
    [CalledProcessError] carrying the code and the captured output. *)
Definition subprocess_run (cmd : list string) : M CompletedProcess :=
  fun tr =>
    let tr' := (tr ++ [Run cmd])%list in
    match cmd with
    | [] => (Raise (StartFailure (IndexError "list index out of range")), tr')
    | _ :: _ =>
        match child (runs tr) cmd with
        | NotStarted errno strerror filename =>
            (Raise (StartFailure (OSError errno strerror filename)), tr')
        | NullByte =>
            (Raise (StartFailure (ValueError "embedded null byte")), tr')
        | Undecodable _ encoding object start stop reason =>
            (Raise (StartFailure
                      (UnicodeDecodeError encoding object start stop reason)),
             tr')
        | Exited retcode out err =>
            if (retcode =? 0)%Z
            then (Ok {| args := cmd; returncode := retcode;
                        stdout := out; stderr := err |}, tr')
            else (Raise (CalledProcessError retcode out err), tr')
        end
    end.

Definition run_cli_command (command : string) : M (Z * string * string) :=
  try_except
    (cmd <- lift (shlex.split command) ;;
     result <- subprocess_run cmd ;;
     ret (returncode result, stdout result, stderr result))
    (fun e =>
       match e with
       | CalledProcessError code out err => ret (code, out, err)
       | StartFailure e => ret ((-1)%Z, EmptyString, str e)
       end).

Definition print_result (result : string) : M unit :=
  print [nl ++ str_mul "=" 50] ;;
  print ["任务结果"] ;;
  print [str_mul "=" 50] ;;
  print [result] ;;
  print [str_mul "=" 50].

Definition example1_create_sync_task : M (option string) :=
  print [nl ++ "=== 示例 1: 创建同步任务 ==="] ;;
  let topic := "AI 技术的发展趋势" in
  let requirements := "写一篇关于 AI 技术发展趋势的文章，重点讨论大语言模型" in
  let keywords := "AI,人工智能,技术发展" in
  let command :=
    "npm run cli:create -- --topic " ++ dq ++ topic ++ dq ++
    " --requirements " ++ dq ++ requirements ++ dq ++
    " --keywords " ++ dq ++ keywords ++ dq ++
    " --min-words 500 --max-words 1000 --mode sync" in
  print ["执行命令: " ++ command] ;;
  '(returncode, stdout, stderr) <- run_cli_command command ;;
  if (returncode =? 0)%Z then
    print ["✅ 任务创建成功！"] ;;
    print_result stdout ;;
    ret (Some stdout)
  else
    print ["❌ 任务执行失败 (返回码: " ++ str_int returncode ++ ")"] ;;
    (if nonempty stdout then print ["标准输出: " ++ stdout] else ret tt) ;;
    (if nonempty stderr then print ["错误输出: " ++ stderr] else ret tt) ;;
    ret None.

Definition example2_create_async_task : M (option string) :=
  print [nl ++ "=== 示例 2: 创建异步任务 ==="] ;;
  let topic := "Web 开发的最佳实践" in
  let requirements := "介绍现代 Web 开发的最佳实践，包括性能优化和安全考虑" in
  let keywords := "Web,前端,性能优化" in
  let command :=
    "npm run cli:create -- --topic " ++ dq ++ topic ++ dq ++
    " --requirements " ++ dq ++ requirements ++ dq ++
    " --keywords " ++ dq ++ keywords ++ dq ++
    " --min-words 800 --max-words 1200 --mode async" in
  print ["执行命令: " ++ command] ;;
  '(returncode, stdout, stderr) <- run_cli_command command ;;
  if (returncode =? 0)%Z then
    print ["✅ 任务创建成功！"] ;;
    print_result stdout ;;
    ret (Some stdout)
  else
    print ["❌ 任务执行失败 (返回码: " ++ str_int returncode ++ ")"] ;;
    (if nonempty stdout then print ["标准输出: " ++ stdout] else ret tt) ;;
    (if nonempty stderr then print ["错误输出: " ++ stderr] else ret tt) ;;
    ret None.

Definition example3_check_task_status (task_id : string) : M (option string) :=
  print [nl ++ "=== 示例 3: 检查任务状态 ==="] ;;
  let command := "npm run cli:status -- --id " ++ task_id in
  print ["执行命令: " ++ command] ;;
  '(returncode, stdout, stderr) <- run_cli_command command ;;
  if (returncode =? 0)%Z then
    print ["✅ 任务状态查询成功！"] ;;
    print_result stdout ;;
    ret (Some stdout)
  else
    print ["❌ 任务状态查询失败 (返回码: " ++ str_int returncode ++ ")"] ;;
    (if nonempty stdout then print ["标准输出: " ++ stdout] else ret tt) ;;
    (if nonempty stderr then print ["错误输出: " ++ stderr] else ret tt) ;;
    ret None.

Definition example4_list_tasks : M (option string) :=
  print [nl ++ "=== 示例 4: 列出所有任务 ==="] ;;
  let command := "npm run cli:list" in
  print ["执行命令: " ++ command] ;;
  '(returncode, stdout, stderr) <- run_cli_command command ;;
  if (returncode =? 0)%Z then
    print ["✅ 任务列表查询成功！"] ;;
    print_result stdout ;;
    ret (Some stdout)
  else
    print ["❌ 任务列表查询失败 (返回码: " ++ str_int returncode ++ ")"] ;;
    (if nonempty stdout then print ["标准输出: " ++ stdout] else ret tt) ;;
    (if nonempty stderr then print ["错误输出: " ++ stderr] else ret tt) ;;
    ret None.

(** Truth value of a driver's result: [None] and the empty string are
    falsy. *)
Definition truthy (v : option string) : bool :=
  match v with
  | None => false
  | Some s => nonempty s
  end.

Definition example5_retry_failed_task : M unit :=
  print [nl ++ "=== 示例 5: 重试失败的任务 ==="] ;;
  tasks_output <- example4_list_tasks ;;
  if truthy tasks_output then
    print [nl ++ "注意: 请手动从任务列表中找到失败的任务ID，然后执行重试"] ;;
    print ["例如: npm run cli:retry -- --id <task-id>"]
  else
    print ["没有找到任务"].

Definition main : M unit :=
  print ["Content Creator Workflow 使用示例 (Python 版本)"] ;;
  print [str_mul "=" 60] ;;
  if negb (path_exists "package.json") then
    print [nl ++ "❌ 错误: 请在 Content Creator 项目根目录运行此脚本"] ;;
    print ["当前目录: "; getcwd] ;;
    ret tt
  else
    print [nl ++ "✅ 项目环境检查通过"] ;;
    print [nl ++ str_mul "=" 60] ;;
    print ["开始运行示例"] ;;
    print [str_mul "=" 60] ;;
    sync_result <- example1_create_sync_task ;;
    example4_list_tasks ;;
    print [nl ++ str_mul "=" 60] ;;
    print ["所有示例运行完成！"] ;;
    print [str_mul "=" 60] ;;
    print [nl ++ "💡 其他可用命令:"] ;;
    print ["  - 查看任务结果: npm run cli:result -- --id <task-id>"] ;;
    print ["  - 重试失败任务: npm run cli:retry -- --id <task-id>"] ;;
    print ["  - 取消任务: npm run cli:cancel -- --id <task-id>"] ;;
    print ["  - 启动监控面板: npm run monitor"].


(** The driver a name stands for. *)
Definition run_driver (d : driver) : M (option string) :=
  match d with
  | CreateSync => example1_create_sync_task
  | CreateAsync => example2_create_async_task
  | Status task_id => example3_check_task_status task_id
  | ListTasks => example4_list_tasks
  end.

(** ** Strings and traces *)

Lemma append_assoc (a b c : string) : (a ++ b) ++ c = a ++ (b ++ c).
Proof. induction a as [|x a IH]; simpl; [reflexivity | now rewrite IH]. Qed.

Lemma append_nil_r (a : string) : a ++ EmptyString = a.
Proof. induction a as [|x a IH]; simpl; [reflexivity | now rewrite IH]. Qed.

Lemma append_snoc (a : string) (c : ascii) (b : string) :
  (a ++ String c EmptyString) ++ b = a ++ String c b.
Proof. now rewrite append_assoc. Qed.

Lemma runs_app (t1 t2 : trace) : runs (t1 ++ t2)%list = (runs t1 ++ runs t2)%list.
Proof.
  induction t1 as [|[text|cmd] t1 IH]; simpl; [reflexivity | assumption |].
  now rewrite IH.
Qed.

(** ** The tokenizer *)

Ltac split_ifs_in H :=
  repeat match type of H with
         | context [if ?b then _ else _] => destruct b eqn:?
         end.

Ltac split_ifs :=
  repeat match goal with
         | |- context [if ?b then _ else _] => destruct b eqn:?
         end.

(** The tokenizer fails in two ways only, each with its own message. *)
Lemma read_tokens_raise (s : string) :
  forall st tok q e x,
    shlex.read_tokens s st tok q e = Raise x ->
    x = StartFailure (ValueError "No closing quotation") \/
    x = StartFailure (ValueError "No escaped character").
Proof.
  induction s as [|c s IH]; intros st tok q e x H.
  - destruct st; simpl in H; unfold shlex.emit in H;
      try destruct (shlex.result_token tok q); try discriminate;
      injection H as <-; auto.
  - destruct st; simpl in H; split_ifs_in H; unfold shlex.emit in H;
      try match type of H with
          | context [shlex.result_token ?t ?b] =>
              destruct (shlex.result_token t b); try discriminate
          end;
      try match type of H with
          | context [match shlex.read_tokens ?a ?b ?c ?d ?f with _ => _ end] =>
              destruct (shlex.read_tokens a b c d f) eqn:E; try discriminate;
              injection H as <-; eauto
          end;
      eauto.
Qed.

Lemma split_raise (s : string) (x : exn) :
  shlex.split s = Raise x ->
  x = StartFailure (ValueError "No closing quotation") \/
  x = StartFailure (ValueError "No escaped character").
Proof. apply read_tokens_raise. Qed.

(** [escapedstate] is written before every entry into an escape state, so
    its value on entry to any other state does not matter. *)
Lemma escapedstate_irrelevant (s : string) :
  forall st tok q e1 e2,
    (forall c, st <> shlex.in_escape c) ->
    shlex.read_tokens s st tok q e1 = shlex.read_tokens s st tok q e2.
Proof.
  induction s as [|c s IH]; intros st tok q e1 e2 Hst.
  - destruct st; reflexivity.
  - destruct st; simpl.
    + split_ifs; try reflexivity; apply IH; congruence.
    + split_ifs; try reflexivity; apply IH; congruence.
    + split_ifs; try reflexivity; apply IH; congruence.
    + now destruct (Hst e).
Qed.

(** Between double quotes, text without a double quote or a backslash is
    appended to the token as it is, up to the closing quote. *)
Lemma quoted_body (body : string) :
  forall tok q e rest,
    str_all quote_free_char body = true ->
    shlex.read_tokens (body ++ String dquote rest) (shlex.in_quote dquote) tok q e =
    shlex.read_tokens rest shlex.in_word (tok ++ body) true e.
Proof.
  induction body as [|c body IH]; intros tok q e rest H.
  - simpl. now rewrite append_nil_r.
  - simpl in H. apply andb_true_iff in H as [Hc H].
    unfold quote_free_char in Hc. apply andb_true_iff in Hc as [Hq Hb].
    apply negb_true_iff in Hq, Hb.
    cbn [append shlex.read_tokens]. rewrite Hq.
    unfold shlex.escape. cbn [in_str]. rewrite Hb. cbn [orb andb].
    rewrite IH by assumption. now rewrite append_snoc.
Qed.

Lemma plain_char_inv (c : ascii) :
  plain_char c = true ->
  in_str c shlex.whitespace = false /\ in_str c shlex.quotes = false /\
  in_str c shlex.escape = false.
Proof.
  unfold plain_char, unspaced_unquoted_char. intros H.
  apply andb_true_iff in H as [H He]. apply andb_true_iff in H as [Hw Hq].
  now apply negb_true_iff in Hw, Hq, He.
Qed.

(** In a word, plain text is appended to the token up to the end. *)
Lemma plain_word (s : string) :
  forall tok q e,
    str_all plain_char s = true ->
    shlex.read_tokens s shlex.in_word tok q e = shlex.emit (tok ++ s) q (Ok []).
Proof.
  induction s as [|c s IH]; intros tok q e H.
  - simpl. now rewrite append_nil_r.
  - simpl in H. apply andb_true_iff in H as [Hc H].
    apply plain_char_inv in Hc as (Hw & Hq & He).
    cbn [shlex.read_tokens]. rewrite Hw, Hq, He.
    rewrite IH by assumption. now rewrite append_snoc.
Qed.

Lemma plain_token (s : string) :
  str_all plain_char s = true -> nonempty s = true ->
  shlex.read_tokens s shlex.in_space EmptyString false shlex.in_space = Ok [s].
Proof.
  destruct s as [|c s]; [discriminate|]. intros H _.
  simpl in H. apply andb_true_iff in H as [Hc H].
  apply plain_char_inv in Hc as (Hw & Hq & He).
  cbn [shlex.read_tokens]. rewrite Hw, Hq, He.
  now rewrite plain_word.
Qed.

Lemma emit_ok (tok : string) (q : bool) (r : Result (list string)) (l : list string) :
  nonempty tok || q = true -> shlex.emit tok q r = Ok l ->
  exists l', r = Ok l' /\ l = tok :: l'.
Proof.
  unfold shlex.emit, shlex.result_token. intros H.
  destruct q, tok; simpl in *; try discriminate;
    destruct r; intros E; try discriminate; injection E as <-; eauto.
Qed.

Lemma emit_prepend (tok : string) (q : bool) (r : Result (list string)) :
  nonempty tok || q = true -> shlex.emit tok q r = prepend [tok] r.
Proof.
  unfold shlex.emit, shlex.result_token. intros H.
  destruct q, tok; simpl in *; try discriminate; destruct r; reflexivity.
Qed.

Lemma read_tokens_end_space (st : shlex.lex_state) (tok : string) (q : bool)
    (e : shlex.lex_state) (l : list string) (s : string) :
  shlex.read_tokens EmptyString st tok q e = Ok l ->
  shlex.read_tokens (String " " s) st tok q e =
  prepend l (shlex.read_tokens s shlex.in_space EmptyString false shlex.in_space).
Proof.
  intros H.
  assert (Hst : st = shlex.in_space \/ st = shlex.in_word)
    by (destruct st; simpl in H; try discriminate; auto).
  assert (Hl : shlex.emit tok q (Ok []) = Ok l)
    by (destruct Hst; subst st; exact H).
  assert (Hstep : shlex.read_tokens (String " " s) st tok q e =
                  if nonempty tok || q
                  then shlex.emit tok q (shlex.read_tokens s shlex.in_space
                                           EmptyString false shlex.in_space)
                  else shlex.read_tokens s shlex.in_space tok q e)
    by (destruct Hst; subst st; reflexivity).
  rewrite Hstep. destruct (nonempty tok || q) eqn:E.
  - rewrite emit_prepend in * by assumption. simpl in Hl. now injection Hl as <-.
  - apply orb_false_iff in E as [E1 E2]. subst q. destruct tok; [|discriminate].
    simpl in Hl. injection Hl as <-.
    rewrite (escapedstate_irrelevant s shlex.in_space EmptyString false e
               shlex.in_space) by congruence.
    now destruct (shlex.read_tokens s shlex.in_space EmptyString false shlex.in_space).
Qed.

(** Tokenization is compositional over a separating space: a well-formed
    prefix contributes its tokens whatever follows the space. *)
Lemma read_tokens_app_space (p : string) :
  forall st tok q e l s,
    shlex.read_tokens p st tok q e = Ok l ->
    shlex.read_tokens (p ++ String " " s) st tok q e =
    prepend l (shlex.read_tokens s shlex.in_space EmptyString false shlex.in_space).
Proof.
  induction p as [|c p IH]; intros st tok q e l s H.
  - now apply read_tokens_end_space.
  - cbn [append]. destruct st; cbn [shlex.read_tokens] in *; split_ifs_in H;
      try (now apply IH).
    + apply emit_ok in H as (l' & H & ->); [|assumption].
      rewrite emit_prepend by assumption. rewrite (IH _ _ _ _ _ _ H).
      now destruct (shlex.read_tokens s shlex.in_space EmptyString false shlex.in_space).
    + apply emit_ok in H as (l' & H & ->); [|assumption].
      rewrite emit_prepend by assumption. rewrite (IH _ _ _ _ _ _ H).
      now destruct (shlex.read_tokens s shlex.in_space EmptyString false shlex.in_space).
Qed.

Lemma split_app_space (p s : string) (l : list string) :
  shlex.split p = Ok l ->
  shlex.split (p ++ " " ++ s) = prepend l (shlex.split s).
Proof. apply read_tokens_app_space. Qed.

(** A double-quoted value is one token, equal to the value. *)
Lemma split_quoted (v : string) :
  str_all quote_free_char v = true ->
  shlex.split (dq ++ v ++ dq) = Ok [v].
Proof.
  intros H. unfold shlex.split, dq. cbn [append shlex.read_tokens].
  change (in_str dquote shlex.whitespace) with false.
  change (in_str dquote shlex.escape) with false.
  change (in_str dquote shlex.quotes) with true. cbv iota.
  now rewrite quoted_body.
Qed.

Lemma split_quoted_argument (p v : string) (l : list string) :
  shlex.split p = Ok l -> str_all quote_free_char v = true ->
  shlex.split (p ++ " " ++ dq ++ v ++ dq) = Ok (l ++ [v])%list.
Proof.
  intros Hp Hv. rewrite (split_app_space _ _ _ Hp).
  now rewrite (split_quoted _ Hv).
Qed.

(** The drivers' command lines and their argument vectors. *)
Lemma split_create_sync : shlex.split create_sync_command = Ok create_sync_argv.
Proof. vm_compute. reflexivity. Qed.

Lemma split_create_async : shlex.split create_async_command = Ok create_async_argv.
Proof. vm_compute. reflexivity. Qed.

Lemma split_list : shlex.split list_command = Ok list_argv.
Proof. vm_compute. reflexivity. Qed.

Lemma split_status (task_id : string) :
  str_all plain_char task_id = true -> nonempty task_id = true ->
  shlex.split (status_command task_id) = Ok (status_argv task_id).
Proof.
  intros Hp Hn.
  change (status_command task_id) with ("npm run cli:status -- --id" ++ " " ++ task_id).
  rewrite (split_app_space _ _ ["npm"; "run"; "cli:status"; "--"; "--id"])
    by (vm_compute; reflexivity).
  unfold shlex.split. now rewrite plain_token.
Qed.

(** ** The command runner *)

Lemma str_OSError_nonempty (errno : Z) (strerror : string) (filename : option string) :
  str (OSError errno strerror filename) <> EmptyString.
Proof. discriminate. Qed.

Lemma run_cli_command_split_raise (command : string) (tr : trace) (x : exn) :
  shlex.split command = Raise x ->
  exists d, run_cli_command command tr = (Ok ((-1)%Z, EmptyString, d), tr) /\
            d <> EmptyString.
Proof.
  intros H. unfold run_cli_command, try_except, bind, lift. rewrite H.
  destruct (split_raise _ _ H) as [-> | ->]; simpl; eexists; split;
    try reflexivity; discriminate.
Qed.

Lemma run_cli_command_empty (command : string) (tr : trace) :
  shlex.split command = Ok [] ->
  run_cli_command command tr =
  (Ok ((-1)%Z, EmptyString, "list index out of range"), (tr ++ [Run []])%list).
Proof.
  intros H. unfold run_cli_command, try_except, bind, lift. now rewrite H.
Qed.

Lemma run_cli_command_exited (command : string) (tr : trace) (cmd : list string)
    (code : Z) (out err : string) :
  shlex.split command = Ok cmd -> cmd <> [] ->
  child (runs tr) cmd = Exited code out err ->
  run_cli_command command tr = (Ok (code, out, err), (tr ++ [Run cmd])%list).
Proof.
  intros H Hne Hc.
  unfold run_cli_command, try_except, bind, lift, subprocess_run. rewrite H.
  destruct cmd as [|a cmd]; [congruence|]. rewrite Hc.
  destruct (code =? 0)%Z; reflexivity.
Qed.

Lemma run_cli_command_not_started (command : string) (tr : trace)
    (cmd : list string) (errno : Z) (strerror : string) (filename : option string) :
  shlex.split command = Ok cmd -> cmd <> [] ->
  child (runs tr) cmd = NotStarted errno strerror filename ->
  run_cli_command command tr =
  (Ok ((-1)%Z, EmptyString, str (OSError errno strerror filename)),
   (tr ++ [Run cmd])%list).
Proof.
  intros H Hne Hc.
  unfold run_cli_command, try_except, bind, lift, subprocess_run. rewrite H.
  destruct cmd as [|a cmd]; [congruence|]. now rewrite Hc.
Qed.


Lemma run_cli_command_undecodable (command : string) (tr : trace)
    (cmd : list string) (code : Z) (encoding object : string)
    (start stop : nat) (reason : string) :
  shlex.split command = Ok cmd -> cmd <> [] ->
  child (runs tr) cmd = Undecodable code encoding object start stop reason ->
  run_cli_command command tr =
  (Ok ((-1)%Z, EmptyString,
       str (UnicodeDecodeError encoding object start stop reason)),
   (tr ++ [Run cmd])%list).
Proof.
  intros H Hne Hc.
  unfold run_cli_command, try_except, bind, lift, subprocess_run. rewrite H.
  destruct cmd as [|a cmd]; [congruence|]. now rewrite Hc.
Qed.

Lemma run_cli_command_null_byte (command : string) (tr : trace)
    (cmd : list string) :
  shlex.split command = Ok cmd -> cmd <> [] ->
  child (runs tr) cmd = NullByte ->
  run_cli_command command tr =
  (Ok ((-1)%Z, EmptyString, "embedded null byte"), (tr ++ [Run cmd])%list).
Proof.
  intros H Hne Hc.
  unfold run_cli_command, try_except, bind, lift, subprocess_run. rewrite H.
  destruct cmd as [|a cmd]; [congruence|]. now rewrite Hc.
Qed.

(** The runner always returns: every exception of its [try] block is
    caught.  It calls [subprocess.run] once, with the tokens of the
    command, unless tokenization fails. *)
Lemma run_cli_command_returns (command : string) (tr : trace) :
  exists r,
    run_cli_command command tr =
    (Ok r, (tr ++ match shlex.split command with
                  | Ok cmd => [Run cmd]
                  | Raise _ => []
                  end)%list).
Proof.
  destruct (shlex.split command) as [cmd|x] eqn:H.
  - destruct cmd as [|a cmd].
    + eexists. now apply run_cli_command_empty.
    + destruct (child (runs tr) (a :: cmd))
        as [code out err|n s f|code enc obj i j r|] eqn:Hc.
      * exists (code, out, err).
        apply run_cli_command_exited; [assumption | discriminate | assumption].
      * eexists.
        apply run_cli_command_not_started; [assumption | discriminate | eassumption].
      * eexists.
        eapply run_cli_command_undecodable; [assumption | discriminate | eassumption].
      * eexists.
        apply run_cli_command_null_byte; [assumption | discriminate | assumption].
  - destruct (run_cli_command_split_raise command tr x H) as (d & E & _).
    eexists. rewrite E. now rewrite app_nil_r.
Qed.

(** ** The drivers, in terms of what the runner returns *)

Lemma runs_failure_details (out err : string) : runs (failure_details out err) = [].
Proof. unfold failure_details. now destruct (nonempty out), (nonempty err). Qed.

Ltac driver_steps :=
  unfold bind, print, print_result, announce, ret;
  cbn [String.concat]; rewrite <- ?app_assoc; cbn [app];
  match goal with
  | |- context [run_cli_command ?c ?t] =>
      destruct (run_cli_command c t) as [[[[? ?] ?]|?] ?]; [|reflexivity]
  end;
  unfold bind, print, ret, failure_details; cbn [String.concat];
  repeat match goal with
         | |- context [if ?b then _ else _] => destruct b
         end;
  cbn [app]; rewrite <- ?app_assoc; reflexivity.

(** Each driver prints its header and command line, calls the runner, and
    prints the success banner and the result block, or the failure banner
    and the captured output. *)
Lemma run_driver_unfold (d : driver) (tr : trace) :
  run_driver d tr =
  match run_cli_command (driver_command d)
          (tr ++ announce (driver_header d) (driver_command d))%list with
  | (Ok (code, out, err), tr') =>
      if (code =? 0)%Z
      then (Ok (Some out), (tr' ++ Print (driver_success d) :: result_block out)%list)
      else (Ok None,
            (tr' ++ Print (failure_banner (driver_failure d) code)
                 :: failure_details out err)%list)
  | (Raise e, tr') => (Raise e, tr')
  end.
Proof.
  destruct d as [| |task_id|]; cbn [run_driver driver_header driver_command
                                     driver_success driver_failure].
  - unfold example1_create_sync_task.
    change ("npm run cli:create -- --topic " ++ _) with create_sync_command.
    driver_steps.
  - unfold example2_create_async_task.
    change ("npm run cli:create -- --topic " ++ _) with create_async_command.
    driver_steps.
  - unfold example3_check_task_status.
    change ("npm run cli:status -- --id " ++ task_id) with (status_command task_id).
    driver_steps.
  - unfold example4_list_tasks.
    change "npm run cli:list" with list_command.
    driver_steps.
Qed.

(** A driver always returns; it extends the trace by its prints and by the
    runner's call of [subprocess.run]. *)
Lemma run_driver_returns (d : driver) (tr : trace) :
  exists r new,
    run_driver d tr = (Ok r, (tr ++ new)%list) /\
    runs new = runs (runner_events (driver_command d)).
Proof.
  rewrite run_driver_unfold.
  destruct (run_cli_command_returns (driver_command d)
              (tr ++ announce (driver_header d) (driver_command d))%list)
    as [[[code out] err] E].
  rewrite E. fold (runner_events (driver_command d)).
  destruct (code =? 0)%Z; do 2 eexists;
    (split; [rewrite <- !app_assoc; reflexivity|]);
    rewrite !runs_app; cbn [announce runs app result_block];
    rewrite ?runs_failure_details; now rewrite app_nil_r.
Qed.

Lemma example5_unfold (tr : trace) :
  example5_retry_failed_task tr =
  match example4_list_tasks (tr ++ [Print (nl ++ retry_header)])%list with
  | (Ok tasks_output, tr') =>
      (Ok tt, (tr' ++ if truthy tasks_output then retry_hint
                      else [Print "没有找到任务"])%list)
  | (Raise e, tr') => (Raise e, tr')
  end.
Proof.
  unfold example5_retry_failed_task, bind, print. cbn [String.concat].
  change ("=== 示例 5: 重试失败的任务 ===") with retry_header.
  destruct (example4_list_tasks _) as [[r|e] tr']; [|reflexivity].
  destruct (truthy r); unfold bind; cbn [String.concat retry_hint];
    now rewrite <- ?app_assoc.
Qed.

Lemma main_unfold_missing (tr : trace) :
  path_exists "package.json" = false ->
  main tr =
  (Ok tt,
   (tr ++ main_banner ++
    [Print (nl ++ "❌ 错误: 请在 Content Creator 项目根目录运行此脚本");
     Print ("当前目录: " ++ " " ++ getcwd)])%list).
Proof.
  intros H. unfold main, bind, print, ret. rewrite H. cbn [negb String.concat].
  now rewrite <- !app_assoc.
Qed.

Lemma main_unfold_present (tr : trace) :
  path_exists "package.json" = true ->
  main tr =
  match example1_create_sync_task (tr ++ main_banner ++ main_start)%list with
  | (Ok sync_result, tr1) =>
      match example4_list_tasks tr1 with
      | (Ok _, tr4) => (Ok tt, (tr4 ++ main_summary)%list)
      | (Raise e, tr4) => (Raise e, tr4)
      end
  | (Raise e, tr1) => (Raise e, tr1)
  end.
Proof.
  intros H. unfold main, bind, print. rewrite H. cbn [negb String.concat].
  rewrite <- !app_assoc. cbn [app main_banner main_start].
  destruct (example1_create_sync_task _) as [[r1|e] tr1]; [|reflexivity].
  destruct (example4_list_tasks tr1) as [[r4|e] tr4]; [|reflexivity].
  unfold main_summary. now rewrite <- !app_assoc.
Qed.

(** ** The runner's contract *)

(** C1: when the process cannot be started at all (the command line does
    not tokenize, it names no program, the operating system cannot
    create or execute the child, or an argument holds a NUL character),
    [run_cli_command] returns the triple [(-1, empty stdout, d)] where [d]
    is a non-empty description of the failure. *)
Theorem run_cli_command_start_failure (command : string) (tr : trace) :
  (exists x, shlex.split command = Raise x) \/
  shlex.split command = Ok [] \/
  (exists cmd errno strerror filename,
     shlex.split command = Ok cmd /\
     child (runs tr) cmd = NotStarted errno strerror filename) \/
  (exists cmd,
     shlex.split command = Ok cmd /\ child (runs tr) cmd = NullByte) ->
  exists d,
    fst (run_cli_command command tr) = Ok ((-1)%Z, EmptyString, d) /\
    d <> EmptyString.
Proof.
  intros [[x H] | [H | [(cmd & errno & strerror & filename & H & Hc)
                       | (cmd & H & Hc)]]];
    [| | | destruct cmd as [|a cmd];
           [ rewrite (run_cli_command_empty command tr H)
           | rewrite (run_cli_command_null_byte command tr (a :: cmd) H
                        ltac:(discriminate) Hc) ];
           eexists; (split; [reflexivity | discriminate]) ].
  - destruct (run_cli_command_split_raise command tr x H) as (d & E & Hd).
    exists d. now rewrite E.
  - rewrite (run_cli_command_empty command tr H).
    eexists. split; [reflexivity | discriminate].
  - destruct cmd as [|a cmd].
    + rewrite (run_cli_command_empty command tr H).
      eexists. split; [reflexivity | discriminate].
    + rewrite (run_cli_command_not_started command tr (a :: cmd) errno strerror
                 filename H ltac:(discriminate) Hc).
      eexists. split; [reflexivity | apply str_OSError_nonempty].
Qed.

(** C2: [run_cli_command] hands the tokens of the command line, as
    [shlex.split] yields them, to [subprocess.run] as the child's argument
    vector, with no shell in between; a double-quoted value, whatever
    characters other than the double quote and the backslash it holds
    ([;], [|], [&&], spaces), arrives as one argument equal to the value;
    and the create-task command lines of the examples become one flag token
    and one value token per pair. *)
Theorem run_cli_command_quoted_arguments :
  (forall command cmd tr,
      shlex.split command = Ok cmd ->
      snd (run_cli_command command tr) = (tr ++ [Run cmd])%list) /\
  (forall p l v tr,
      shlex.split p = Ok l ->
      str_all quote_free_char v = true ->
      snd (run_cli_command (p ++ " " ++ dq ++ v ++ dq) tr) =
      (tr ++ [Run (l ++ [v])])%list) /\
  shlex.split create_sync_command = Ok create_sync_argv /\
  shlex.split create_async_command = Ok create_async_argv /\
  (forall tr,
      runs (snd (example1_create_sync_task tr)) =
      (runs tr ++ [create_sync_argv])%list).
Proof.
  assert (Hrun : forall command cmd tr,
             shlex.split command = Ok cmd ->
             snd (run_cli_command command tr) = (tr ++ [Run cmd])%list).
  { intros command cmd tr H.
    destruct (run_cli_command_returns command tr) as [r E].
    rewrite E, H. reflexivity. }
  split; [exact Hrun|]. split.
  { intros p l v tr Hp Hv. apply Hrun. now apply split_quoted_argument. }
  split; [exact split_create_sync|]. split; [exact split_create_async|].
  intros tr. destruct (run_driver_returns CreateSync tr) as (r & new & E & Hn).
  cbn [run_driver] in E. rewrite E. cbn [snd].
  rewrite runs_app, Hn. unfold runner_events. cbn [driver_command].
  now rewrite split_create_sync.
Qed.


(** ** The drivers *)

(** C4: when the runner returns a nonzero code, a driver prints its
    failure banner with that code in it, then the captured stdout and the
    captured stderr (each when not empty), and returns [None]: no
    exception leaves the driver.  The retry driver, which runs the list
    driver, prints the same and then its no-task line. *)
Theorem drivers_report_failure (d : driver) (tr tr' : trace) (code : Z)
    (out err : string) :
  code <> 0%Z ->
  (run_cli_command (driver_command d)
     (tr ++ announce (driver_header d) (driver_command d))%list =
   (Ok (code, out, err), tr') ->
   run_driver d tr =
   (Ok None,
    (tr' ++ Print (failure_banner (driver_failure d) code)
         :: failure_details out err)%list)) /\
  (run_cli_command list_command
     ((tr ++ [Print (nl ++ retry_header)]) ++
      announce (driver_header ListTasks) list_command)%list =
   (Ok (code, out, err), tr') ->
   example5_retry_failed_task tr =
   (Ok tt,
    (tr' ++ Print (failure_banner (driver_failure ListTasks) code)
         :: failure_details out err ++ [Print "没有找到任务"])%list)).
Proof.
  intros Hcode. apply Z.eqb_neq in Hcode. split; intros H.
  - rewrite run_driver_unfold, H, Hcode. reflexivity.
  - rewrite example5_unfold.
    change example4_list_tasks with (run_driver ListTasks).
    rewrite run_driver_unfold. cbn [driver_command]. rewrite H, Hcode.
    cbn [truthy]. rewrite <- app_assoc. reflexivity.
Qed.

(** C5: when the runner returns exit code 0, a driver prints its success
    banner and then the captured stdout, as it is, between the separator
    lines of [print_result], and returns that stdout. *)
Theorem drivers_report_success (d : driver) (tr tr' : trace) (out err : string) :
  run_cli_command (driver_command d)
    (tr ++ announce (driver_header d) (driver_command d))%list =
  (Ok (0%Z, out, err), tr') ->
  run_driver d tr =
  (Ok (Some out),
   (tr' ++ [Print (driver_success d);
            Print (nl ++ str_mul "=" 50); Print "任务结果";
            Print (str_mul "=" 50); Print out; Print (str_mul "=" 50)])%list) /\
  print_result out tr' = (Ok tt, (tr' ++ result_block out)%list).
Proof.
  intros H. split.
  - rewrite run_driver_unfold, H. reflexivity.
  - unfold print_result, bind, print, result_block. cbn [String.concat].
    now rewrite <- !app_assoc.
Qed.

(** C9: a driver returns the captured stdout when the exit code is 0 and
    [None] otherwise; so the retry driver prints its no-task line whenever
    the list driver's result is falsy, also when the list command exits
    with code 0 and empty stdout. *)
Theorem drivers_return_stdout_or_none :
  (forall d tr tr' code out err,
      run_cli_command (driver_command d)
        (tr ++ announce (driver_header d) (driver_command d))%list =
      (Ok (code, out, err), tr') ->
      fst (run_driver d tr) = Ok (if (code =? 0)%Z then Some out else None)) /\
  (forall tr tr' tasks_output,
      example4_list_tasks (tr ++ [Print (nl ++ retry_header)])%list =
      (Ok tasks_output, tr') ->
      truthy tasks_output = false ->
      example5_retry_failed_task tr = (Ok tt, (tr' ++ [Print "没有找到任务"])%list)) /\
  (forall tr tr' err,
      run_cli_command list_command
        ((tr ++ [Print (nl ++ retry_header)]) ++
         announce (driver_header ListTasks) list_command)%list =
      (Ok (0%Z, EmptyString, err), tr') ->
      example5_retry_failed_task tr =
      (Ok tt,
       (tr' ++ Print (driver_success ListTasks)
            :: result_block EmptyString ++ [Print "没有找到任务"])%list)).
Proof.
  split; [|split].
  - intros d tr tr' code out err H. rewrite run_driver_unfold, H.
    now destruct (code =? 0)%Z.
  - intros tr tr' r H Hr. rewrite example5_unfold, H, Hr. reflexivity.
  - intros tr tr' err H. rewrite example5_unfold.
    change example4_list_tasks with (run_driver ListTasks).
    rewrite run_driver_unfold. cbn [driver_command]. rewrite H.
    cbn [Z.eqb truthy nonempty]. rewrite <- app_assoc. reflexivity.
Qed.

(** The list driver never raises and calls [subprocess.run] once, with
    [npm run cli:list]. *)
Lemma example4_returns (tr : trace) :
  exists r new,
    example4_list_tasks tr = (Ok r, (tr ++ new)%list) /\ runs new = [list_argv].
Proof.
  destruct (run_driver_returns ListTasks tr) as (r & new & E & Hn).
  exists r, new. split; [exact E|].
  rewrite Hn. unfold runner_events. cbn [driver_command].
  now rewrite split_list.
Qed.

Lemma example1_returns (tr : trace) :
  exists r new,
    example1_create_sync_task tr = (Ok r, (tr ++ new)%list) /\
    runs new = [create_sync_argv].
Proof.
  destruct (run_driver_returns CreateSync tr) as (r & new & E & Hn).
  exists r, new. split; [exact E|].
  rewrite Hn. unfold runner_events. cbn [driver_command].
  now rewrite split_create_sync.
Qed.

(** The retry driver: its header, the list driver's run, then the hint or
    the no-task line. *)
Lemma example5_returns (tr : trace) :
  exists r mid,
    example4_list_tasks (tr ++ [Print (nl ++ retry_header)])%list =
    (Ok r, ((tr ++ [Print (nl ++ retry_header)]) ++ mid)%list) /\
    runs mid = [list_argv] /\
    example5_retry_failed_task tr =
    (Ok tt,
     (tr ++ Print (nl ++ retry_header)
         :: mid ++ (if truthy r then retry_hint else [Print "没有找到任务"]))%list).
Proof.
  destruct (example4_returns (tr ++ [Print (nl ++ retry_header)])%list)
    as (r & mid & E & Hm).
  exists r, mid. split; [exact E|]. split; [exact Hm|].
  rewrite example5_unfold, E. now rewrite <- !app_assoc.
Qed.

(** With the marker file present, [main] runs the create-sync driver and
    then the list driver, and returns. *)
Lemma main_returns_present (tr : trace) :
  path_exists "package.json" = true ->
  exists r1 new1 r4 new4,
    example1_create_sync_task (tr ++ main_banner ++ main_start)%list =
    (Ok r1, ((tr ++ main_banner ++ main_start) ++ new1)%list) /\
    runs new1 = [create_sync_argv] /\
    example4_list_tasks ((tr ++ main_banner ++ main_start) ++ new1)%list =
    (Ok r4, (((tr ++ main_banner ++ main_start) ++ new1) ++ new4)%list) /\
    runs new4 = [list_argv] /\
    main tr =
    (Ok tt,
     (tr ++ main_banner ++ main_start ++ new1 ++ new4 ++ main_summary)%list).
Proof.
  intros H.
  destruct (example1_returns (tr ++ main_banner ++ main_start)%list)
    as (r1 & new1 & E1 & H1).
  destruct (example4_returns ((tr ++ main_banner ++ main_start) ++ new1)%list)
    as (r4 & new4 & E4 & H4).
  exists r1, new1, r4, new4. repeat (split; [assumption|]).
  rewrite (main_unfold_present tr H), E1, E4.
  now rewrite <- !app_assoc.
Qed.

(** ** The top-level driver *)

(** C6: in a working directory without the marker file [package.json],
    [main] prints its banner and the two lines of the precondition
    diagnostic, and returns without any call of [subprocess.run]. *)
Theorem main_without_marker (tr : trace) :
  path_exists "package.json" = false ->
  main tr =
  (Ok tt,
   (tr ++ main_banner ++
    [Print (nl ++ "❌ 错误: 请在 Content Creator 项目根目录运行此脚本");
     Print ("当前目录: " ++ " " ++ getcwd)])%list) /\
  runs (snd (main tr)) = runs tr.
Proof.
  intros H. rewrite (main_unfold_missing tr H). split; [reflexivity|].
  cbn [snd]. rewrite runs_app. cbn [main_banner app runs].
  apply app_nil_r.
Qed.

(** C7: with the marker file present, [main] runs two drivers in
    sequence, the create-sync driver and then the list driver, prints the
    summary of the commands left to run by hand, and returns normally
    whatever the outcome of the two commands. *)
Theorem main_with_marker (tr : trace) :
  path_exists "package.json" = true ->
  exists r1 tr1 r4 tr4,
    example1_create_sync_task (tr ++ main_banner ++ main_start)%list = (Ok r1, tr1) /\
    example4_list_tasks tr1 = (Ok r4, tr4) /\
    main tr = (Ok tt, (tr4 ++ main_summary)%list) /\
    runs (snd (main tr)) = (runs tr ++ [create_sync_argv; list_argv])%list.
Proof.
  intros H.
  destruct (main_returns_present tr H)
    as (r1 & new1 & r4 & new4 & E1 & H1 & E4 & H4 & E).
  do 4 eexists. split; [exact E1|]. split; [exact E4|]. split.
  - rewrite E. now rewrite <- !app_assoc.
  - rewrite E. cbn [snd]. rewrite !runs_app, H1, H4.
    cbn [main_banner main_start main_summary runs app]. reflexivity.
Qed.

(** C8: the retry driver never issues a retry command: it runs the list
    driver, whose one call of [subprocess.run] is [npm run cli:list], and
    then prints either the instructions to retry by hand or the no-task
    line; no argument of any command that the retry driver or [main]
    executes contains [retry]. *)
Theorem example5_never_retries (tr : trace) :
  (exists r mid,
      example4_list_tasks (tr ++ [Print (nl ++ retry_header)])%list =
      (Ok r, ((tr ++ [Print (nl ++ retry_header)]) ++ mid)%list) /\
      runs mid = [["npm"; "run"; "cli:list"]] /\
      example5_retry_failed_task tr =
      (Ok tt,
       (tr ++ Print (nl ++ retry_header)
           :: mid ++ (if truthy r then retry_hint else [Print "没有找到任务"]))%list)) /\
  (exists new,
      example5_retry_failed_task tr = (Ok tt, (tr ++ new)%list) /\
      Forall (fun cmd => existsb (mentions "retry") cmd = false) (runs new)) /\
  (exists new,
      main tr = (Ok tt, (tr ++ new)%list) /\
      Forall (fun cmd => existsb (mentions "retry") cmd = false) (runs new)).
Proof.
  destruct (example5_returns tr) as (r & mid & E4 & Hm & E5).
  split; [|split].
  - exists r, mid. auto.
  - eexists. split; [exact E5|].
    change (runs (Print (nl ++ retry_header) :: ?t)) with (runs t).
    rewrite runs_app, Hm.
    destruct (truthy r); cbn [retry_hint runs app]; repeat constructor.
  - destruct (path_exists "package.json") eqn:Hp.
    + destruct (main_returns_present tr Hp)
        as (r1 & new1 & r4 & new4 & _ & H1 & _ & H4 & E).
      eexists. split; [exact E|].
      rewrite !runs_app, H1, H4.
      cbn [main_banner main_start main_summary runs app].
      repeat constructor.
    + eexists. split; [exact (main_unfold_missing tr Hp)|].
      rewrite runs_app. cbn [main_banner runs app]. constructor.
Qed.

(** C10, amended: the status driver interpolates the task id without
    quotes; for every non-empty task id that holds no whitespace, no quote
    character and no backslash, the formatted command tokenizes to
    [npm run cli:status -- --id] followed by the id as one token, and that
    is the argument vector the driver executes. *)
Theorem example3_status_argv (task_id : string) (tr : trace) :
  nonempty task_id = true ->
  str_all plain_char task_id = true ->
  shlex.split (status_command task_id) =
  Ok ["npm"; "run"; "cli:status"; "--"; "--id"; task_id] /\
  exists r new,
    example3_check_task_status task_id tr = (Ok r, (tr ++ new)%list) /\
    runs new = [["npm"; "run"; "cli:status"; "--"; "--id"; task_id]].
Proof.
  intros Hn Hp. pose proof (split_status task_id Hp Hn) as Hs.
  split; [exact Hs|].
  destruct (run_driver_returns (Status task_id) tr) as (r & new & E & Hr).
  exists r, new. split; [exact E|].
  rewrite Hr. unfold runner_events. cbn [driver_command]. now rewrite Hs.
Qed.

(** ** More on the tokenizer *)

(** Leading whitespace is skipped. *)
Lemma read_tokens_leading_ws (ws : string) :
  forall s e,
    str_all whitespace_char ws = true ->
    shlex.read_tokens (ws ++ s) shlex.in_space EmptyString false e =
    shlex.read_tokens s shlex.in_space EmptyString false e.
Proof.
  induction ws as [|c ws IH]; intros s e H; [reflexivity|].
  simpl in H. apply andb_true_iff in H as [Hc H]. unfold whitespace_char in Hc.
  cbn [append shlex.read_tokens]. rewrite Hc. cbn [nonempty orb].
  now apply IH.
Qed.

Lemma read_tokens_end_sep (c : ascii) (st : shlex.lex_state) (tok : string)
    (q : bool) (e : shlex.lex_state) (l : list string) (s : string) :
  in_str c shlex.whitespace = true ->
  shlex.read_tokens EmptyString st tok q e = Ok l ->
  shlex.read_tokens (String c s) st tok q e =
  prepend l (shlex.read_tokens s shlex.in_space EmptyString false shlex.in_space).
Proof.
  intros Hc H.
  assert (Hst : st = shlex.in_space \/ st = shlex.in_word)
    by (destruct st; simpl in H; try discriminate; auto).
  assert (Hl : shlex.emit tok q (Ok []) = Ok l)
    by (destruct Hst; subst st; exact H).
  assert (Hstep : shlex.read_tokens (String c s) st tok q e =
                  if nonempty tok || q
                  then shlex.emit tok q (shlex.read_tokens s shlex.in_space
                                           EmptyString false shlex.in_space)
                  else shlex.read_tokens s shlex.in_space tok q e)
    by (destruct Hst; subst st; cbn [shlex.read_tokens]; now rewrite Hc).
  rewrite Hstep. destruct (nonempty tok || q) eqn:E.
  - rewrite emit_prepend in * by assumption. simpl in Hl. now injection Hl as <-.
  - apply orb_false_iff in E as [E1 E2]. subst q. destruct tok; [|discriminate].
    simpl in Hl. injection Hl as <-.
    rewrite (escapedstate_irrelevant s shlex.in_space EmptyString false e
               shlex.in_space) by congruence.
    now destruct (shlex.read_tokens s shlex.in_space EmptyString false shlex.in_space).
Qed.

(** A well-formed prefix contributes its tokens whatever follows a
    whitespace character. *)
Lemma read_tokens_app_sep (c : ascii) (p : string) :
  in_str c shlex.whitespace = true ->
  forall st tok q e l s,
    shlex.read_tokens p st tok q e = Ok l ->
    shlex.read_tokens (p ++ String c s) st tok q e =
    prepend l (shlex.read_tokens s shlex.in_space EmptyString false shlex.in_space).
Proof.
  intros Hc. induction p as [|x p IH]; intros st tok q e l s H.
  - now apply read_tokens_end_sep.
  - cbn [append]. destruct st; cbn [shlex.read_tokens] in *; split_ifs_in H;
      try (now apply IH).
    + apply emit_ok in H as (l' & H & ->); [|assumption].
      rewrite emit_prepend by assumption. rewrite (IH _ _ _ _ _ _ H).
      now destruct (shlex.read_tokens s shlex.in_space EmptyString false shlex.in_space).
    + apply emit_ok in H as (l' & H & ->); [|assumption].
      rewrite emit_prepend by assumption. rewrite (IH _ _ _ _ _ _ H).
      now destruct (shlex.read_tokens s shlex.in_space EmptyString false shlex.in_space).
Qed.

Lemma split_app_ws (p ws s : string) (l : list string) :
  shlex.split p = Ok l ->
  nonempty ws = true ->
  str_all whitespace_char ws = true ->
  shlex.split (p ++ ws ++ s) = prepend l (shlex.split s).
Proof.
  intros Hp Hn Hw. destruct ws as [|c ws]; [discriminate|].
  simpl in Hw. apply andb_true_iff in Hw as [Hc Hw].
  cbn [append]. unfold shlex.split.
  rewrite (read_tokens_app_sep c p Hc _ _ _ _ l (ws ++ s) Hp).
  now rewrite read_tokens_leading_ws.
Qed.

Lemma split_blank (ws : string) :
  str_all whitespace_char ws = true -> shlex.split ws = Ok [].
Proof.
  intros H. unfold shlex.split.
  rewrite <- (append_nil_r ws). now rewrite read_tokens_leading_ws.
Qed.

(** In a quote that is never closed the tokenizer stays between the quote
    state and the escape state, and fails at the end of the input. *)
Lemma unclosed_quote (body : string) :
  forall tok q e,
    str_all quote_free_char body = true ->
    shlex.read_tokens body (shlex.in_quote dquote) tok q e =
    Raise (StartFailure (ValueError no_closing_quotation)).
Proof.
  induction body as [|c body IH]; intros tok q e H; [reflexivity|].
  simpl in H. apply andb_true_iff in H as [Hc H].
  unfold quote_free_char in Hc. apply andb_true_iff in Hc as [Hq Hb].
  apply negb_true_iff in Hq, Hb.
  cbn [shlex.read_tokens]. rewrite Hq.
  unfold shlex.escape. cbn [in_str]. rewrite Hb. cbn [orb andb].
  now apply IH.
Qed.

Lemma prepend_raise (l : list string) (r : Result (list string)) (x : exn) :
  r = Raise x -> prepend l r = Raise x.
Proof. now intros ->. Qed.

Lemma emit_raise (tok : string) (q : bool) (x : exn) :
  nonempty tok || q = true -> shlex.emit tok q (Raise x) = Raise x.
Proof. intros H. now rewrite emit_prepend. Qed.

(** A backslash at the very end of a command line that tokenizes without
    it has no character to escape. *)
Lemma read_tokens_trailing_backslash (p : string) :
  forall st tok q e l,
    shlex.read_tokens p st tok q e = Ok l ->
    shlex.read_tokens (p ++ String backslash EmptyString) st tok q e =
    Raise (StartFailure (ValueError no_escaped_character)).
Proof.
  induction p as [|x p IH]; intros st tok q e l H.
  - destruct st; simpl in H; try discriminate; reflexivity.
  - cbn [append]. destruct st; cbn [shlex.read_tokens] in *; split_ifs_in H;
      try (now eapply IH; eauto).
    + apply emit_ok in H as (l' & H & ->); [|assumption].
      rewrite (IH _ _ _ _ _ H). now apply emit_raise.
    + apply emit_ok in H as (l' & H & ->); [|assumption].
      rewrite (IH _ _ _ _ _ H). now apply emit_raise.
Qed.

Lemma split_render (a : cli_arg) :
  well_formed a = true -> shlex.split (render a) = Ok [arg_value a].
Proof.
  destruct a as [word|value]; cbn [well_formed render arg_value]; intros H.
  - apply andb_true_iff in H as [Hn Hp]. now apply plain_token.
  - now apply split_quoted.
Qed.

(** Joining well-formed arguments with spaces and tokenizing gives the
    arguments' values back. *)
Lemma split_join (l : list cli_arg) :
  forallb well_formed l = true ->
  shlex.split (String.concat " " (map render l)) = Ok (map arg_value l).
Proof.
  induction l as [|a l IH]; intros H; [reflexivity|].
  cbn [forallb] in H. apply andb_true_iff in H as [Ha Hl].
  destruct l as [|b l].
  - cbn [map String.concat]. now apply split_render.
  - change (String.concat " " (map render (a :: b :: l)))
      with (render a ++ " " ++ String.concat " " (map render (b :: l))).
    rewrite (split_app_space _ _ _ (split_render a Ha)).
    rewrite (IH Hl). reflexivity.
Qed.

(** ** More on the runner *)

Lemma printed_app (t1 t2 : trace) :
  printed (t1 ++ t2)%list = (printed t1 ++ printed t2)%list.
Proof.
  induction t1 as [|[text|cmd] t1 IH]; simpl; [reflexivity | | assumption].
  now rewrite IH.
Qed.

Lemma printed_runner_events (command : string) :
  printed (runner_events command) = [].
Proof. unfold runner_events. now destruct (shlex.split command). Qed.

(** The runner looks at its command line through [shlex.split] only. *)
Lemma run_cli_command_ext (c1 c2 : string) (tr : trace) :
  shlex.split c1 = shlex.split c2 ->
  run_cli_command c1 tr = run_cli_command c2 tr.
Proof.
  intros H. unfold run_cli_command, try_except, bind, lift. now rewrite H.
Qed.

Lemma run_cli_command_value_error (command msg : string) (tr : trace) :
  shlex.split command = Raise (StartFailure (ValueError msg)) ->
  run_cli_command command tr = (Ok ((-1)%Z, EmptyString, msg), tr).
Proof.
  intros H. unfold run_cli_command, try_except, bind, lift. now rewrite H.
Qed.

Lemma run_cli_command_split_failure (command : string) (tr : trace) (x : exn) :
  shlex.split command = Raise x ->
  exists d,
    run_cli_command command tr = (Ok ((-1)%Z, EmptyString, d), tr) /\
    (d = no_closing_quotation \/ d = no_escaped_character).
Proof.
  intros H. destruct (split_raise _ _ H) as [-> | ->].
  - exists no_closing_quotation. split; [|now left].
    now apply run_cli_command_value_error.
  - exists no_escaped_character. split; [|now right].
    now apply run_cli_command_value_error.
Qed.

(** What the runner returns and does, in every case. *)
Lemma runner_outcome (command : string) (tr : trace) :
  exists code out err,
    run_cli_command command tr =
    (Ok (code, out, err), (tr ++ runner_events command)%list) /\
    (code = (-1)%Z \/
     exists cmd,
       shlex.split command = Ok cmd /\
       child (runs tr) cmd = Exited code out err).
Proof.
  unfold runner_events.
  destruct (shlex.split command) as [cmd|x] eqn:H.
  - destruct cmd as [|a cmd].
    + do 3 eexists. split; [now apply run_cli_command_empty | now left].
    + destruct (child (runs tr) (a :: cmd))
        as [code out err|n s f|code enc obj i j r|] eqn:Hc.
      * exists code, out, err. split.
        -- apply run_cli_command_exited; [assumption | discriminate | assumption].
        -- right. exists (a :: cmd). now split.
      * do 3 eexists. split; [|now left].
        apply run_cli_command_not_started; [assumption | discriminate | eassumption].
      * do 3 eexists. split; [|now left].
        eapply run_cli_command_undecodable; [assumption | discriminate | eassumption].
      * do 3 eexists. split; [|now left].
        apply run_cli_command_null_byte; [assumption | discriminate | assumption].
  - destruct (run_cli_command_split_failure command tr x H) as (d & E & _).
    do 3 eexists. rewrite app_nil_r. split; [exact E | now left].
Qed.

(** What a driver returns and adds to the trace, in every case. *)
Lemma run_driver_report (d : driver) (tr : trace) :
  exists r,
    fst (run_cli_command (driver_command d)
           (tr ++ announce (driver_header d) (driver_command d))%list) = Ok r /\
    run_driver d tr = (Ok (driver_value r), (tr ++ driver_report d r)%list).
Proof.
  destruct (runner_outcome (driver_command d)
              (tr ++ announce (driver_header d) (driver_command d))%list)
    as (code & out & err & E & _).
  exists (code, out, err). rewrite run_driver_unfold, E. split; [reflexivity|].
  cbn [driver_value driver_report].
  destruct (code =? 0)%Z; now rewrite <- !app_assoc.
Qed.

(** ** Further properties of the runner *)

(** X1: [run_cli_command] returns a triple for every command line in
    every environment and never raises; it prints nothing and calls
    [subprocess.run] at most once, with the tokens of the command line;
    the code it returns is the sentinel -1 or the exit code of the child
    that ran. *)
Theorem run_cli_command_always_returns (command : string) (tr : trace) :
  exists code out err,
    run_cli_command command tr =
    (Ok (code, out, err), (tr ++ runner_events command)%list) /\
    printed (tr ++ runner_events command)%list = printed tr /\
    length (runs (runner_events command)) <= 1 /\
    (code = (-1)%Z \/
     exists cmd,
       shlex.split command = Ok cmd /\
       child (runs tr) cmd = Exited code out err).
Proof.
  destruct (runner_outcome command tr) as (code & out & err & E & H).
  exists code, out, err. split; [exact E|]. split; [|split; [|exact H]].
  - rewrite printed_app, printed_runner_events. apply app_nil_r.
  - unfold runner_events. destruct (shlex.split command); cbn; lia.
Qed.

(** X2: a command line that is empty or all whitespace has no tokens:
    [subprocess.run] is called with an empty argument list, and the runner
    returns -1, empty stdout and the text of the [IndexError]. *)
Theorem run_cli_command_blank_command (command : string) (tr : trace) :
  str_all whitespace_char command = true ->
  run_cli_command command tr =
  (Ok ((-1)%Z, EmptyString, "list index out of range"), (tr ++ [Run []])%list).
Proof.
  intros H. apply run_cli_command_empty. now apply split_blank.
Qed.

(** X4: after a prefix that tokenizes, a double quote that is opened and
    never closed makes the runner return "No closing quotation", and a
    backslash at the very end "No escaped character"; nothing is
    executed in either case, not even the well-formed prefix. *)
Theorem run_cli_command_unbalanced (p v : string) (l : list string) (tr : trace) :
  shlex.split p = Ok l ->
  str_all quote_free_char v = true ->
  run_cli_command (p ++ " " ++ dq ++ v) tr =
  (Ok ((-1)%Z, EmptyString, "No closing quotation"), tr) /\
  run_cli_command (p ++ String backslash EmptyString) tr =
  (Ok ((-1)%Z, EmptyString, "No escaped character"), tr).
Proof.
  intros Hp Hv. split; apply run_cli_command_value_error.
  - rewrite (split_app_space _ _ _ Hp). apply prepend_raise.
    unfold shlex.split, dq. cbn [append shlex.read_tokens].
    change (in_str dquote shlex.whitespace) with false.
    change (in_str dquote shlex.escape) with false.
    change (in_str dquote shlex.quotes) with true. cbv iota.
    now apply unclosed_quote.
  - exact (read_tokens_trailing_backslash p _ _ _ _ l Hp).
Qed.

(** X9: whitespace around and between the arguments does not matter:
    leading whitespace is skipped (so the runner does the same with and
    without it), trailing whitespace adds no token, and any non-empty run
    of spaces, tabs, carriage returns and newlines separates a well-formed
    prefix from the rest like a single space. *)
Theorem split_whitespace_insensitive (ws s : string) (tr : trace) :
  str_all whitespace_char ws = true ->
  shlex.split (ws ++ s) = shlex.split s /\
  run_cli_command (ws ++ s) tr = run_cli_command s tr /\
  (forall l, shlex.split s = Ok l -> shlex.split (s ++ ws) = Ok l) /\
  (forall p l,
      shlex.split p = Ok l -> nonempty ws = true ->
      shlex.split (p ++ ws ++ s) = prepend l (shlex.split s)).
Proof.
  intros Hw.
  assert (Hlead : shlex.split (ws ++ s) = shlex.split s)
    by (unfold shlex.split; now apply read_tokens_leading_ws).
  split; [exact Hlead|]. split; [now apply run_cli_command_ext|]. split.
  - intros l Hs. destruct ws as [|c ws]; [now rewrite append_nil_r|].
    rewrite <- (append_nil_r (String c ws)).
    rewrite (split_app_ws s (String c ws) EmptyString l Hs eq_refl Hw).
    cbn. now rewrite app_nil_r.
  - intros p l Hp Hn. now apply split_app_ws.
Qed.

(** X8: round trip of the drivers' quoting convention: a command line made
    of bare words and double-quoted values joined by single spaces
    tokenizes to exactly the words and the values, one token each (a
    quoted value may be empty or hold spaces and shell metacharacters),
    and that list is what the runner executes. *)
Theorem split_join_round_trip (l : list cli_arg) (tr : trace) :
  forallb well_formed l = true ->
  shlex.split (String.concat " " (map render l)) = Ok (map arg_value l) /\
  snd (run_cli_command (String.concat " " (map render l)) tr) =
  (tr ++ [Run (map arg_value l)])%list.
Proof.
  intros H. pose proof (split_join l H) as Hs. split; [exact Hs|].
  destruct (run_cli_command_returns (String.concat " " (map render l)) tr)
    as [r E].
  rewrite E, Hs. reflexivity.
Qed.

(** X7: the create-task f-strings tokenize to one flag token and one
    value token per pair for every topic, requirements and keywords that
    hold no double quote and no backslash; the command lines of the two
    create drivers are the instances at their own values. *)
Theorem create_templates_tokenize (topic requirements keywords : string) :
  str_all quote_free_char topic = true ->
  str_all quote_free_char requirements = true ->
  str_all quote_free_char keywords = true ->
  shlex.split (create_sync_template topic requirements keywords) =
  Ok (["npm"; "run"; "cli:create"; "--"] ++
      flag_pairs [("--topic", topic); ("--requirements", requirements);
                  ("--keywords", keywords); ("--min-words", "500");
                  ("--max-words", "1000"); ("--mode", "sync")])%list /\
  shlex.split (create_async_template topic requirements keywords) =
  Ok (["npm"; "run"; "cli:create"; "--"] ++
      flag_pairs [("--topic", topic); ("--requirements", requirements);
                  ("--keywords", keywords); ("--min-words", "800");
                  ("--max-words", "1200"); ("--mode", "async")])%list /\
  create_sync_template "AI 技术的发展趋势"
    "写一篇关于 AI 技术发展趋势的文章，重点讨论大语言模型"
    "AI,人工智能,技术发展" = create_sync_command /\
  create_async_template "Web 开发的最佳实践"
    "介绍现代 Web 开发的最佳实践，包括性能优化和安全考虑"
    "Web,前端,性能优化" = create_async_command.
Proof.
  intros Ht Hr Hk.
  assert (Hsync : create_sync_template topic requirements keywords =
                  String.concat " "
                    (map render
                       [Bare "npm"; Bare "run"; Bare "cli:create"; Bare "--";
                        Bare "--topic"; Quoted topic;
                        Bare "--requirements"; Quoted requirements;
                        Bare "--keywords"; Quoted keywords;
                        Bare "--min-words"; Bare "500";
                        Bare "--max-words"; Bare "1000";
                        Bare "--mode"; Bare "sync"])).
  { unfold create_sync_template. cbn [map render String.concat dq append].
    now rewrite !append_assoc. }
  assert (Hasync : create_async_template topic requirements keywords =
                   String.concat " "
                     (map render
                        [Bare "npm"; Bare "run"; Bare "cli:create"; Bare "--";
                         Bare "--topic"; Quoted topic;
                         Bare "--requirements"; Quoted requirements;
                         Bare "--keywords"; Quoted keywords;
                         Bare "--min-words"; Bare "800";
                         Bare "--max-words"; Bare "1200";
                         Bare "--mode"; Bare "async"])).
  { unfold create_async_template. cbn [map render String.concat dq append].
    now rewrite !append_assoc. }
  split; [|split; [|split; reflexivity]].
  - rewrite Hsync, split_join; [reflexivity|].
    cbn [forallb well_formed]. rewrite Ht, Hr, Hk. reflexivity.
  - rewrite Hasync, split_join; [reflexivity|].
    cbn [forallb well_formed]. rewrite Ht, Hr, Hk. reflexivity.
Qed.

(** ** Further properties of the drivers *)

(** X11: every driver returns normally in every environment, for every
    task id: it prints its header and the command line, lets the runner
    make its one call, and prints the success banner with the result
    block or the failure banner with the captured output, according to the
    runner's triple; it returns the stdout on code 0 and [None]
    otherwise. *)
Theorem drivers_always_return (d : driver) (tr : trace) :
  exists code out err,
    fst (run_cli_command (driver_command d)
           (tr ++ announce (driver_header d) (driver_command d))%list) =
    Ok (code, out, err) /\
    run_driver d tr =
    (Ok (if (code =? 0)%Z then Some out else None),
     (tr ++ announce (driver_header d) (driver_command d) ++
      runner_events (driver_command d) ++
      (if (code =? 0)%Z
       then Print (driver_success d) :: result_block out
       else Print (failure_banner (driver_failure d) code)
              :: failure_details out err))%list).
Proof.
  destruct (run_driver_report d tr) as ([[code out] err] & Hr & E).
  exists code, out, err. split; [exact Hr | exact E].
Qed.

(** X12: when the program of a driver's command cannot be started, the
    driver prints its failure banner with code -1 and then one line with
    the text of the operating system's error; no stdout line is printed,
    and the driver returns [None]. *)
Theorem drivers_report_start_failure (d : driver) (tr : trace)
    (cmd : list string) (errno : Z) (strerror : string)
    (filename : option string) :
  shlex.split (driver_command d) = Ok cmd ->
  cmd <> [] ->
  child (runs tr) cmd = NotStarted errno strerror filename ->
  run_driver d tr =
  (Ok None,
   (tr ++ announce (driver_header d) (driver_command d) ++
    [Run cmd;
     Print (failure_banner (driver_failure d) (-1));
     Print ("错误输出: " ++ "[Errno " ++ str_int errno ++ "] " ++ strerror ++
            match filename with
            | Some f => ": " ++ repr f
            | None => EmptyString
            end)])%list).
Proof.
  intros Hs Hne Hc. rewrite run_driver_unfold.
  rewrite (run_cli_command_not_started (driver_command d) _ cmd errno strerror
             filename Hs Hne).
  - cbn [Z.eqb failure_details nonempty str append app].
    now rewrite <- !app_assoc.
  - rewrite runs_app. cbn [announce runs]. now rewrite app_nil_r.
Qed.

(** X5: whatever the task id, the status driver executes at most one
    command, and its argument vector starts with
    [npm run cli:status -- --id]; the id contributes its own tokens after
    them, none, one or several, and nothing is executed when the id does
    not tokenize. *)
Theorem example3_argv_prefix (task_id : string) (tr : trace) :
  shlex.split (status_command task_id) =
  prepend ["npm"; "run"; "cli:status"; "--"; "--id"] (shlex.split task_id) /\
  exists r new,
    example3_check_task_status task_id tr = (Ok r, (tr ++ new)%list) /\
    runs new =
    match shlex.split task_id with
    | Ok rest => [(["npm"; "run"; "cli:status"; "--"; "--id"] ++ rest)%list]
    | Raise _ => []
    end.
Proof.
  assert (Hs : shlex.split (status_command task_id) =
               prepend ["npm"; "run"; "cli:status"; "--"; "--id"]
                 (shlex.split task_id)).
  { change (status_command task_id)
      with ("npm run cli:status -- --id" ++ " " ++ task_id).
    apply split_app_space. vm_compute. reflexivity. }
  split; [exact Hs|].
  destruct (run_driver_returns (Status task_id) tr) as (r & new & E & Hr).
  exists r, new. split; [exact E|].
  rewrite Hr. unfold runner_events. cbn [driver_command]. rewrite Hs.
  now destruct (shlex.split task_id).
Qed.

(** X6: a task id that does not tokenize (an unbalanced quote, a trailing
    backslash) is reported and not executed: the status driver prints its
    failure banner with code -1 and the message of [shlex] as error
    output, calls no process, and returns [None]. *)
Theorem example3_rejects_malformed_id (task_id : string) (tr : trace) (x : exn) :
  shlex.split task_id = Raise x ->
  exists d,
    (d = "No closing quotation" \/ d = "No escaped character") /\
    example3_check_task_status task_id tr =
    (Ok None,
     (tr ++ [Print (nl ++ "=== 示例 3: 检查任务状态 ===");
             Print ("执行命令: npm run cli:status -- --id " ++ task_id);
             Print "❌ 任务状态查询失败 (返回码: -1)";
             Print ("错误输出: " ++ d)])%list).
Proof.
  intros H.
  assert (Hs : shlex.split (status_command task_id) = Raise x).
  { change (status_command task_id)
      with ("npm run cli:status -- --id" ++ " " ++ task_id).
    rewrite (split_app_space _ _ ["npm"; "run"; "cli:status"; "--"; "--id"])
      by (vm_compute; reflexivity).
    now rewrite H. }
  destruct (run_cli_command_split_failure (status_command task_id)
              (tr ++ announce (driver_header (Status task_id))
                     (status_command task_id))%list x Hs)
    as (d & E & Hd).
  exists d. split; [exact Hd|].
  change (example3_check_task_status task_id) with (run_driver (Status task_id)).
  rewrite run_driver_unfold. cbn [driver_command]. rewrite E.
  cbn [Z.eqb failure_details nonempty app].
  assert (Hne : nonempty d = true) by (destruct Hd; subst d; reflexivity).
  rewrite Hne. now rewrite <- !app_assoc.
Qed.

(** X10: with the marker file present, everything [main] prints and
    executes is its banner, the report of the create-sync driver, the
    report of the list driver and the summary, in that order; each report
    is that of the triple the runner returned to the driver. *)
Theorem main_console (tr : trace) :
  path_exists "package.json" = true ->
  exists r1 r4,
    fst (run_cli_command create_sync_command
           ((tr ++ main_banner ++ main_start) ++
            announce (driver_header CreateSync) create_sync_command)%list) =
    Ok r1 /\
    fst (run_cli_command list_command
           (((tr ++ main_banner ++ main_start) ++ driver_report CreateSync r1) ++
            announce (driver_header ListTasks) list_command)%list) =
    Ok r4 /\
    main tr =
    (Ok tt,
     (tr ++ main_banner ++ main_start ++ driver_report CreateSync r1 ++
      driver_report ListTasks r4 ++ main_summary)%list).
Proof.
  intros H.
  destruct (run_driver_report CreateSync (tr ++ main_banner ++ main_start)%list)
    as (r1 & Hr1 & E1).
  destruct (run_driver_report ListTasks
              ((tr ++ main_banner ++ main_start) ++ driver_report CreateSync r1)%list)
    as (r4 & Hr4 & E4).
  exists r1, r4. split; [exact Hr1|]. split; [exact Hr4|].
  rewrite (main_unfold_present tr H).
  cbn [run_driver] in E1, E4. rewrite E1, E4.
  now rewrite <- !app_assoc.
Qed.

(** ** Command lines without quotes *)

Lemma str_all_snoc (p : ascii -> bool) (s : string) (c : ascii) :
  str_all p s = true -> p c = true ->
  str_all p (s ++ String c EmptyString) = true.
Proof.
  induction s as [|x s IH]; simpl; intros Hs Hc.
  - now rewrite Hc.
  - apply andb_true_iff in Hs as [Hx Hs]. rewrite Hx. now apply IH.
Qed.

Lemma nonempty_snoc (s : string) (c : ascii) :
  nonempty (s ++ String c EmptyString) = true.
Proof. now destruct s. Qed.

Lemma emit_plain (tok : string) (l : list string) :
  str_all plain_char tok = true ->
  forallb plain_nonempty l = true ->
  exists l',
    (if nonempty tok
     then shlex.emit tok false (Ok l)
     else Ok l) = Ok l' /\
    forallb plain_nonempty l' = true.
Proof.
  intros Ht Hl. destruct tok as [|c tok].
  - exists l. now split.
  - exists (String c tok :: l). split; [reflexivity|].
    cbn [forallb]. rewrite Hl. unfold plain_nonempty. now rewrite Ht.
Qed.

(** Outside quotes and escapes the tokenizer cannot fail, and its tokens
    are not empty and plain. *)
Lemma read_tokens_unquoted (s : string) :
  forall st tok e,
    st = shlex.in_space \/ st = shlex.in_word ->
    str_all unquoted_char s = true ->
    str_all plain_char tok = true ->
    exists l,
      shlex.read_tokens s st tok false e = Ok l /\
      forallb plain_nonempty l = true.
Proof.
  induction s as [|c s IH]; intros st tok e Hst Hs Ht.
  - destruct (emit_plain tok [] Ht eq_refl) as (l' & E & Hl').
    exists l'. split; [|exact Hl'].
    destruct Hst; subst st; cbn [shlex.read_tokens]; rewrite <- E;
      now destruct tok.
  - simpl in Hs. apply andb_true_iff in Hs as [Hc Hs].
    unfold unquoted_char in Hc. apply andb_true_iff in Hc as [Hq He].
    apply negb_true_iff in Hq, He.
    destruct (in_str c shlex.whitespace) eqn:Hw.
    + destruct (IH shlex.in_space EmptyString shlex.in_space (or_introl eq_refl)
                  Hs eq_refl) as (l & El & Hl).
      destruct (emit_plain tok l Ht Hl) as (l' & E & Hl').
      exists l'. split; [|exact Hl'].
      destruct Hst; subst st; cbn [shlex.read_tokens]; rewrite Hw, orb_false_r;
        (destruct tok as [|x tok];
         [ cbn [nonempty] in *; injection E as <-;
           rewrite (escapedstate_irrelevant s shlex.in_space EmptyString false e
                      shlex.in_space) by congruence; exact El
         | cbn [nonempty] in *; now rewrite El ]).
    + assert (Hp : plain_char c = true)
        by (unfold plain_char, unspaced_unquoted_char; now rewrite Hw, Hq, He).
      destruct Hst; subst st; cbn [shlex.read_tokens]; rewrite Hw, He, Hq.
      * apply IH; [now right | exact Hs | cbn; now rewrite Hp].
      * apply IH; [now right | exact Hs | now apply str_all_snoc].
Qed.

Lemma map_render_bare (l : list string) : map render (map Bare l) = l.
Proof. induction l as [|a l IH]; [reflexivity | cbn; now rewrite IH]. Qed.

Lemma map_value_bare (l : list string) : map arg_value (map Bare l) = l.
Proof. induction l as [|a l IH]; [reflexivity | cbn; now rewrite IH]. Qed.

Lemma forallb_bare (l : list string) :
  forallb plain_nonempty l = true -> forallb well_formed (map Bare l) = true.
Proof.
  induction l as [|a l IH]; [reflexivity|]. cbn [forallb map well_formed].
  intros H. apply andb_true_iff in H as [Ha Hl].
  unfold plain_nonempty in Ha. rewrite Ha. now apply IH.
Qed.

(** X13: a command line that holds no quote character and no backslash
    always tokenizes: the runner reaches [subprocess.run] with tokens that
    are not empty and hold no whitespace, and joining the tokens by single
    spaces gives a command line with the same tokens. *)
Theorem unquoted_command_tokenizes (command : string) (tr : trace) :
  str_all unquoted_char command = true ->
  exists l,
    shlex.split command = Ok l /\
    forallb plain_nonempty l = true /\
    shlex.split (String.concat " " l) = Ok l /\
    snd (run_cli_command command tr) = (tr ++ [Run l])%list.
Proof.
  intros H.
  destruct (read_tokens_unquoted command shlex.in_space EmptyString shlex.in_space
              (or_introl eq_refl) H eq_refl) as (l & E & Hl).
  exists l. fold (shlex.split command) in E.
  split; [exact E|]. split; [exact Hl|]. split.
  - pose proof (split_join (map Bare l) (forallb_bare l Hl)) as Hj.
    now rewrite map_render_bare, map_value_bare in Hj.
  - destruct (run_cli_command_returns command tr) as [r Er].
    rewrite Er, E. reflexivity.
Qed.

(** X3: when the command line does not tokenize, the runner returns -1,
    empty stdout and one of the two messages of [shlex], and the trace is
    unchanged: no process is attempted.  This happens only to command
    lines that hold a quote character or a backslash. *)
Theorem run_cli_command_tokenization_failure (command : string) (tr : trace)
    (x : exn) :
  shlex.split command = Raise x ->
  str_all unquoted_char command = false /\
  exists d,
    run_cli_command command tr = (Ok ((-1)%Z, EmptyString, d), tr) /\
    (d = "No closing quotation" \/ d = "No escaped character").
Proof.
  intros H. split.
  - destruct (str_all unquoted_char command) eqn:Hu; [|reflexivity].
    destruct (read_tokens_unquoted command shlex.in_space EmptyString
                shlex.in_space (or_introl eq_refl) Hu eq_refl) as (l & E & _).
    fold (shlex.split command) in E. congruence.
  - now apply run_cli_command_split_failure with (x := x).
Qed.

End Script.

(** ** The theorems at concrete runs *)

(** C1 on an operating system where no program is found. *)
Lemma run_cli_command_start_failure_witness :
  ((exists x, shlex.split "content-creator list" = Raise x) \/
   shlex.split "content-creator list" = Ok [] \/
   (exists cmd errno strerror filename,
      shlex.split "content-creator list" = Ok cmd /\
      stub_missing (runs []) cmd = NotStarted errno strerror filename) \/
   (exists cmd,
      shlex.split "content-creator list" = Ok cmd /\
      stub_missing (runs []) cmd = NullByte)) /\
  exists d,
    fst (run_cli_command stub_missing stub_repr "content-creator list" []) =
    Ok ((-1)%Z, EmptyString, d) /\
    d <> EmptyString.
Proof.
  assert (H : (exists x, shlex.split "content-creator list" = Raise x) \/
              shlex.split "content-creator list" = Ok [] \/
              (exists cmd errno strerror filename,
                  shlex.split "content-creator list" = Ok cmd /\
                  stub_missing (runs []) cmd = NotStarted errno strerror filename) \/
              (exists cmd,
                  shlex.split "content-creator list" = Ok cmd /\
                  stub_missing (runs []) cmd = NullByte)).
  { right. right. left.
    exists ["content-creator"; "list"], 2%Z, "No such file or directory",
      (Some "content-creator").
    split; reflexivity. }
  split; [exact H|].
  exact (run_cli_command_start_failure stub_missing stub_repr
           "content-creator list" [] H).
Defined.

(** C2 on a quoted value full of shell metacharacters. *)
Lemma run_cli_command_quoted_arguments_witness :
  shlex.split "echo" = Ok ["echo"] /\
  str_all quote_free_char "a; rm -rf / | b && c" = true /\
  snd (run_cli_command (stub_exit 0 EmptyString EmptyString) stub_repr
         ("echo" ++ " " ++ dq ++ "a; rm -rf / | b && c" ++ dq) []) =
  [Run ["echo"; "a; rm -rf / | b && c"]].
Proof.
  split; [reflexivity|]. split; [reflexivity|].
  exact (proj1 (proj2 (run_cli_command_quoted_arguments
                         (stub_exit 0 EmptyString EmptyString) stub_repr))
           "echo" ["echo"] "a; rm -rf / | b && c" [] eq_refl eq_refl).
Defined.



(** C4 on a stub that exits with code 1. *)
Lemma drivers_report_failure_witness :
  1%Z <> 0%Z /\
  run_cli_command (stub_exit 1 EmptyString "boom") stub_repr list_command
    ([] ++ announce (driver_header ListTasks) list_command)%list =
  (Ok (1%Z, EmptyString, "boom"),
   (announce (driver_header ListTasks) list_command ++ [Run list_argv])%list) /\
  example4_list_tasks (stub_exit 1 EmptyString "boom") stub_repr [] =
  (Ok None,
   [Print (nl ++ "=== 示例 4: 列出所有任务 ===");
    Print "执行命令: npm run cli:list";
    Run ["npm"; "run"; "cli:list"];
    Print "❌ 任务列表查询失败 (返回码: 1)";
    Print "错误输出: boom"]).
Proof.
  split; [discriminate|]. split; [reflexivity|].
  exact (proj1 (drivers_report_failure (stub_exit 1 EmptyString "boom") stub_repr
                  ListTasks [] _ 1 EmptyString "boom" ltac:(discriminate))
           eq_refl).
Defined.

(** C5 on a stub that exits with code 0. *)
Lemma drivers_report_success_witness :
  run_cli_command (stub_exit 0 "task-1 done" EmptyString) stub_repr list_command
    ([] ++ announce (driver_header ListTasks) list_command)%list =
  (Ok (0%Z, "task-1 done", EmptyString),
   (announce (driver_header ListTasks) list_command ++ [Run list_argv])%list) /\
  example4_list_tasks (stub_exit 0 "task-1 done" EmptyString) stub_repr [] =
  (Ok (Some "task-1 done"),
   [Print (nl ++ "=== 示例 4: 列出所有任务 ===");
    Print "执行命令: npm run cli:list";
    Run ["npm"; "run"; "cli:list"];
    Print "✅ 任务列表查询成功！";
    Print (nl ++ "==================================================");
    Print "任务结果";
    Print "==================================================";
    Print "task-1 done";
    Print "=================================================="]).
Proof.
  split; [reflexivity|].
  exact (proj1 (drivers_report_success (stub_exit 0 "task-1 done" EmptyString)
                  stub_repr ListTasks [] _ "task-1 done" EmptyString eq_refl)).
Defined.

(** C6 in a directory without [package.json]. *)
Lemma main_without_marker_witness :
  (fun _ : string => false) "package.json" = false /\
  runs (snd (main (stub_exit 0 EmptyString EmptyString) (fun _ => false)
               "/home/user" stub_repr [])) = [].
Proof.
  split; [reflexivity|].
  exact (proj2 (main_without_marker (stub_exit 0 EmptyString EmptyString)
                  (fun _ => false) "/home/user" stub_repr [] eq_refl)).
Defined.

(** C7 in the project root, with a CLI that always fails. *)
Lemma main_with_marker_witness :
  (fun _ : string => true) "package.json" = true /\
  exists r1 tr1 r4 tr4,
    example1_create_sync_task (stub_exit 2 EmptyString "npm ERR!") stub_repr
      ([] ++ main_banner ++ main_start)%list = (Ok r1, tr1) /\
    example4_list_tasks (stub_exit 2 EmptyString "npm ERR!") stub_repr tr1 =
    (Ok r4, tr4) /\
    main (stub_exit 2 EmptyString "npm ERR!") (fun _ => true) "/home/user"
      stub_repr [] = (Ok tt, (tr4 ++ main_summary)%list) /\
    runs (snd (main (stub_exit 2 EmptyString "npm ERR!") (fun _ => true)
                 "/home/user" stub_repr [])) =
    ([] ++ [create_sync_argv; list_argv])%list.
Proof.
  split; [reflexivity|].
  exact (main_with_marker (stub_exit 2 EmptyString "npm ERR!") (fun _ => true)
           "/home/user" stub_repr [] eq_refl).
Defined.

(** C9 on a list command that succeeds and prints nothing. *)
Lemma drivers_return_stdout_or_none_witness :
  run_cli_command (stub_exit 0 EmptyString EmptyString) stub_repr list_command
    (([] ++ [Print (nl ++ retry_header)]) ++
     announce (driver_header ListTasks) list_command)%list =
  (Ok (0%Z, EmptyString, EmptyString),
   ([Print (nl ++ retry_header)] ++
    announce (driver_header ListTasks) list_command ++ [Run list_argv])%list) /\
  printed (snd (example5_retry_failed_task (stub_exit 0 EmptyString EmptyString)
                  stub_repr [])) =
  [nl ++ "=== 示例 5: 重试失败的任务 ===";
   nl ++ "=== 示例 4: 列出所有任务 ===";
   "执行命令: npm run cli:list";
   "✅ 任务列表查询成功！";
   nl ++ "==================================================";
   "任务结果";
   "==================================================";
   EmptyString;
   "==================================================";
   "没有找到任务"].
Proof.
  split; [reflexivity|].
  rewrite (proj2 (proj2 (drivers_return_stdout_or_none
                           (stub_exit 0 EmptyString EmptyString) stub_repr))
             [] _ EmptyString eq_refl).
  reflexivity.
Defined.

(** C10, amended, on an ordinary task id. *)
Lemma example3_status_argv_witness :
  nonempty "task-42" = true /\
  str_all plain_char "task-42" = true /\
  shlex.split (status_command "task-42") =
  Ok ["npm"; "run"; "cli:status"; "--"; "--id"; "task-42"].
Proof.
  split; [reflexivity|]. split; [reflexivity|].
  exact (proj1 (example3_status_argv (stub_exit 0 EmptyString EmptyString)
                  stub_repr "task-42" [] eq_refl eq_refl)).
Defined.

(** C10 as stated fails: a task id without whitespace and without quote
    characters is not always the last token.  A backslash in the id is
    taken as an escape and dropped, and an empty id leaves no token. *)
Lemma status_argv_counterexample :
  (str_all unspaced_unquoted_char "a\b" = true /\
   shlex.split (status_command "a\b") =
   Ok ["npm"; "run"; "cli:status"; "--"; "--id"; "ab"] /\
   shlex.split (status_command "a\b") <> Ok (status_argv "a\b")) /\
  (str_all unspaced_unquoted_char EmptyString = true /\
   shlex.split (status_command EmptyString) =
   Ok ["npm"; "run"; "cli:status"; "--"; "--id"] /\
   shlex.split (status_command EmptyString) <> Ok (status_argv EmptyString)).
Proof.
  split; (split; [reflexivity|]); (split; [reflexivity|]);
    vm_compute; discriminate.
Qed.

(** ** The further properties at concrete runs *)

(** X2 on three spaces. *)
Lemma run_cli_command_blank_command_witness :
  str_all whitespace_char "   " = true /\
  run_cli_command (stub_exit 0 EmptyString EmptyString) stub_repr "   " [] =
  (Ok ((-1)%Z, EmptyString, "list index out of range"), [Run []]).
Proof.
  split; [reflexivity|].
  exact (run_cli_command_blank_command (stub_exit 0 EmptyString EmptyString)
           stub_repr "   " [] eq_refl).
Defined.

(** X3 on a command line with an unclosed quote. *)
Lemma run_cli_command_tokenization_failure_witness :
  shlex.split ("npm run " ++ dq ++ "x") =
  Raise (StartFailure (ValueError "No closing quotation")) /\
  str_all unquoted_char ("npm run " ++ dq ++ "x") = false /\
  exists d,
    run_cli_command (stub_exit 0 EmptyString EmptyString) stub_repr
      ("npm run " ++ dq ++ "x") [] = (Ok ((-1)%Z, EmptyString, d), []) /\
    (d = "No closing quotation" \/ d = "No escaped character").
Proof.
  split; [reflexivity|].
  exact (run_cli_command_tokenization_failure
           (stub_exit 0 EmptyString EmptyString) stub_repr
           ("npm run " ++ dq ++ "x") [] _ eq_refl).
Defined.

(** X4 after the prefix [npm run]. *)
Lemma run_cli_command_unbalanced_witness :
  shlex.split "npm run" = Ok ["npm"; "run"] /\
  str_all quote_free_char "x y" = true /\
  run_cli_command (stub_exit 0 EmptyString EmptyString) stub_repr
    ("npm run" ++ " " ++ dq ++ "x y") [] =
  (Ok ((-1)%Z, EmptyString, "No closing quotation"), []) /\
  run_cli_command (stub_exit 0 EmptyString EmptyString) stub_repr
    ("npm run" ++ String backslash EmptyString) [] =
  (Ok ((-1)%Z, EmptyString, "No escaped character"), []).
Proof.
  split; [reflexivity|]. split; [reflexivity|].
  exact (run_cli_command_unbalanced (stub_exit 0 EmptyString EmptyString)
           stub_repr "npm run" "x y" ["npm"; "run"] [] eq_refl eq_refl).
Defined.

(** X6 on a task id that ends in a double quote. *)
Lemma example3_rejects_malformed_id_witness :
  shlex.split ("abc" ++ dq) =
  Raise (StartFailure (ValueError "No closing quotation")) /\
  exists d,
    (d = "No closing quotation" \/ d = "No escaped character") /\
    example3_check_task_status (stub_exit 0 EmptyString EmptyString) stub_repr
      ("abc" ++ dq) [] =
    (Ok None,
     [Print (nl ++ "=== 示例 3: 检查任务状态 ===");
      Print ("执行命令: npm run cli:status -- --id " ++ ("abc" ++ dq));
      Print "❌ 任务状态查询失败 (返回码: -1)";
      Print ("错误输出: " ++ d)]).
Proof.
  split; [reflexivity|].
  exact (example3_rejects_malformed_id (stub_exit 0 EmptyString EmptyString)
           stub_repr ("abc" ++ dq) [] _ eq_refl).
Defined.

(** X7 on values with shell metacharacters and an empty value. *)
Lemma create_templates_tokenize_witness :
  str_all quote_free_char "a; b" = true /\
  str_all quote_free_char EmptyString = true /\
  str_all quote_free_char "x | y && z" = true /\
  shlex.split (create_sync_template "a; b" EmptyString "x | y && z") =
  Ok ["npm"; "run"; "cli:create"; "--"; "--topic"; "a; b";
      "--requirements"; EmptyString; "--keywords"; "x | y && z";
      "--min-words"; "500"; "--max-words"; "1000"; "--mode"; "sync"].
Proof.
  split; [reflexivity|]. split; [reflexivity|]. split; [reflexivity|].
  exact (proj1 (create_templates_tokenize "a; b" EmptyString "x | y && z"
                  eq_refl eq_refl eq_refl)).
Defined.

(** X8 on a bare word, a value with a space and an empty value. *)
Lemma split_join_round_trip_witness :
  forallb well_formed [Bare "echo"; Quoted "a b"; Quoted EmptyString] = true /\
  shlex.split ("echo" ++ " " ++ dq ++ "a b" ++ dq ++ " " ++ dq ++ dq) =
  Ok ["echo"; "a b"; EmptyString].
Proof.
  split; [reflexivity|].
  exact (proj1 (split_join_round_trip (stub_exit 0 EmptyString EmptyString)
                  stub_repr [Bare "echo"; Quoted "a b"; Quoted EmptyString] []
                  eq_refl)).
Defined.

(** X9 on two spaces. *)
Lemma split_whitespace_insensitive_witness :
  str_all whitespace_char "  " = true /\
  shlex.split ("  " ++ "npm run") = shlex.split "npm run" /\
  shlex.split ("npm run" ++ "  ") = Ok ["npm"; "run"] /\
  shlex.split ("npm" ++ "  " ++ "npm run") = Ok ["npm"; "npm"; "run"].
Proof.
  split; [reflexivity|].
  pose proof (split_whitespace_insensitive (stub_exit 0 EmptyString EmptyString)
                stub_repr "  " "npm run" [] eq_refl) as (H1 & _ & H3 & H4).
  split; [exact H1|]. split.
  - exact (H3 ["npm"; "run"] eq_refl).
  - exact (H4 "npm" ["npm"] eq_refl eq_refl).
Defined.

(** X10 in the project root, with a CLI that always exits with code 2. *)
Lemma main_console_witness :
  (fun _ : string => true) "package.json" = true /\
  main (stub_exit 2 EmptyString "npm ERR!") (fun _ => true) "/home/user"
    stub_repr [] =
  (Ok tt,
   (main_banner ++ main_start ++
    driver_report CreateSync (2%Z, EmptyString, "npm ERR!") ++
    driver_report ListTasks (2%Z, EmptyString, "npm ERR!") ++ main_summary)%list).
Proof.
  split; [reflexivity|].
  destruct (main_console (stub_exit 2 EmptyString "npm ERR!") (fun _ => true)
              "/home/user" stub_repr [] eq_refl) as (r1 & r4 & H1 & H4 & E).
  cbv in H1. injection H1 as <-.
  cbv in H4. injection H4 as <-.
  exact E.
Defined.

(** X12 on an operating system where no program is found. *)
Lemma drivers_report_start_failure_witness :
  shlex.split (driver_command ListTasks) = Ok list_argv /\
  list_argv <> [] /\
  stub_missing (runs []) list_argv =
  NotStarted 2 "No such file or directory" (Some "npm") /\
  example4_list_tasks stub_missing stub_repr [] =
  (Ok None,
   [Print (nl ++ "=== 示例 4: 列出所有任务 ===");
    Print "执行命令: npm run cli:list";
    Run ["npm"; "run"; "cli:list"];
    Print "❌ 任务列表查询失败 (返回码: -1)";
    Print "错误输出: [Errno 2] No such file or directory: 'npm'"]).
Proof.
  split; [reflexivity|]. split; [discriminate|]. split; [reflexivity|].
  exact (drivers_report_start_failure stub_missing stub_repr ListTasks []
           list_argv 2 "No such file or directory" (Some "npm") eq_refl
           ltac:(discriminate) eq_refl).
Defined.

(** X13 on a command line with doubled spaces and shell metacharacters. *)
Lemma unquoted_command_tokenizes_witness :
  str_all unquoted_char "npm  run cli:list ; rm -rf /" = true /\
  exists l,
    shlex.split "npm  run cli:list ; rm -rf /" = Ok l /\
    forallb plain_nonempty l = true /\
    shlex.split (String.concat " " l) = Ok l /\
    snd (run_cli_command (stub_exit 0 EmptyString EmptyString) stub_repr
           "npm  run cli:list ; rm -rf /" []) = [Run l].
Proof.
  split; [reflexivity|].
  exact (unquoted_command_tokenizes (stub_exit 0 EmptyString EmptyString)
           stub_repr "npm  run cli:list ; rm -rf /" [] eq_refl).
Defined.
